(** * pathwaylistfile: the KEGG [pathway.list] parser

    A shallow embedding of [pathwaylistfile/pathwaylistfile.py] and the
    properties of its line classifiers, its build pass and its accessors.

    Conventions of the embedding:
    - a Python [str] is the list of its Unicode code points ([list N]);
    - a [dict] is a [gmap]; Python compares dicts by contents, and so does
      [gmap]'s equality;
    - [list(set(l))] is [elements (list_to_set l)]: a duplicate-free list
      in an order the program does not control;
    - an exception is a value of [exn]; the attributes of [self] keep
      whatever was written to them before the exception was raised, the
      local variables of the interrupted call are lost;
    - the input file is the list of lines that iterating over the open
      file yields (each with its line terminator, if it has one); it is
      assumed to exist and to stay the same between two reads. *)

From Stdlib Require Import String Ascii.
From stdpp Require Import gmap list fin_maps.

Local Open Scope N_scope.

(** ** Strings *)

Abbreviation str := (list N).

(** An ASCII literal as a Python string. *)
Definition py (s : string) : str :=
  map N_of_ascii (list_ascii_of_string s).

Definition HASH : N := 35.
Definition SPACE : N := 32.
Definition LF : N := 10.
Definition CR : N := 13.

(** [[0-9]] in a pattern: the ten ASCII digits only. *)
Definition is_digit (c : N) : bool := (48 <=? c) && (c <=? 57).

(** [[A-Z]] in a pattern: the 26 ASCII capitals only. *)
Definition is_upper (c : N) : bool := (65 <=? c) && (c <=? 90).

(** [\s] in a [str] pattern: the characters for which [str.isspace] holds. *)
Definition is_space (c : N) : bool :=
  ((9 <=? c) && (c <=? 13)) || ((28 <=? c) && (c <=? 32))
  || (c =? 133) || (c =? 160) || (c =? 5760)
  || ((8192 <=? c) && (c <=? 8202))
  || (c =? 8232) || (c =? 8233) || (c =? 8239) || (c =? 8287)
  || (c =? 12288).

Fixpoint take_while {A} (p : A → bool) (l : list A) : list A :=
  match l with
  | [] => []
  | x :: l' => if p x then x :: take_while p l' else []
  end.

Fixpoint drop_while {A} (p : A → bool) (l : list A) : list A :=
  match l with
  | [] => []
  | x :: l' => if p x then drop_while p l' else l
  end.

(** [line.rstrip('\r\n')]: drop every trailing CR and LF. *)
Definition rstrip_crlf (s : str) : str :=
  rev (drop_while (λ c, (c =? CR) || (c =? LF)) (rev s)).

(** [line.replace('#','')]: drop every ['#'], wherever it stands. *)
Definition remove_hashes (s : str) : str :=
  filter (λ c, c ≠ HASH) s.

(** ** Exceptions and results *)

Inductive exn :=
  | UnboundLocalError (name : string)
  | KeyError (key : str)
  | AttributeError.

Inductive result (A : Type) :=
  | Ok (a : A)
  | Raise (e : exn).
Arguments Ok {A} a.
Arguments Raise {A} e.

(** ** Line classification and field extraction *)

(** [re.compile('^#[A-Z]').search(string)] *)
Definition is_metabolic_super_class (s : str) : bool :=
  match s with
  | h :: c :: _ => (h =? HASH) && is_upper c
  | _ => false
  end.

(** [re.compile('^##[A-Z]').search(string)] *)
Definition is_metabolic_class (s : str) : bool :=
  match s with
  | h1 :: h2 :: c :: _ => (h1 =? HASH) && (h2 =? HASH) && is_upper c
  | _ => false
  end.

(** The common prefix [^[0-9]{1,}\s] of the three map-record patterns.
    The digit run is matched greedily; giving a digit back never helps,
    because the next pattern item [\s] would then have to match a digit.
    On success the result is the digit run and the text that follows the
    one whitespace character. *)
Definition re_map_prefix (s : str) : option (str * str) :=
  match take_while is_digit s, drop_while is_digit s with
  | (_ :: _) as digits, w :: tail =>
      if is_space w then Some (digits, tail) else None
  | _, _ => None
  end.

(** [re_map.search(string)] for the pattern [^([0-9]{1,})\s] followed by
    any run of characters other than LF: that last item matches the empty
    run if nothing else, so it never fails. *)
Definition is_metabolic_map_record (s : str) : bool :=
  match re_map_prefix s with
  | Some _ => true
  | None => false
  end.

(** [result.group(1)] for the same pattern: the digit run. When the
    pattern does not match, [result] is [None] and [.group] raises. *)
Definition metabolic_pathway_map_number (s : str) : result str :=
  match re_map_prefix s with
  | Some (digits, _) => Ok digits
  | None => Raise AttributeError
  end.

(** [result.group(1)] for the pattern [^[0-9]{1,}\s] followed by a group
    that captures the longest run of characters other than LF; then
    [re.sub] with the pattern [^\ {1,}], which removes the run of U+0020
    at the start of that group. *)
Definition metabolic_pathway_map_name (s : str) : result str :=
  match re_map_prefix s with
  | Some (_, tail) =>
      let group1 := take_while (λ c, negb (c =? LF)) tail in
      Ok (drop_while (λ c, c =? SPACE) group1)
  | None => Raise AttributeError
  end.

(** ** The parser object *)

(** The value stored for a map number in [maps_and_pathways]: a dict with
    the three fixed keys ['map_name'], ['superclass'] and ['class']. *)
Record map_data := MapData {
  map_name : str;
  superclass : str;
  class : str
}.

(** The attributes of a [PathwayListFile] instance.  [pathway_file] stands
    for the file that the path names: the lines it yields.  [file_reads]
    is not an attribute of the Python object: it counts how many times the
    file has been opened and read, the one effect of the build pass that
    the attributes do not show. *)
Record PathwayListFile := Self {
  pathway_file : list str;
  metabolic_pathways : gmap str (gmap str (gmap str str));
  maps_and_pathways : gmap str map_data;
  metabolic_pathways_names : list str;
  metabolic_pathways_map_numbers : list str;
  metabolic_pathways_super_classes : list str;
  metabolic_pathways_classes : list str;
  file_reads : nat
}.

(** [PathwayListFile(pathway_file)] *)
Definition __init__ (file : list str) : PathwayListFile :=
  {| pathway_file := file;
     metabolic_pathways := ∅;
     maps_and_pathways := ∅;
     metabolic_pathways_names := [];
     metabolic_pathways_map_numbers := [];
     metabolic_pathways_super_classes := [];
     metabolic_pathways_classes := [];
     file_reads := 0 |}.

Definition set_metabolic_pathways
    (h : gmap str (gmap str (gmap str str))) (self : PathwayListFile) :=
  {| pathway_file := pathway_file self;
     metabolic_pathways := h;
     maps_and_pathways := maps_and_pathways self;
     metabolic_pathways_names := metabolic_pathways_names self;
     metabolic_pathways_map_numbers := metabolic_pathways_map_numbers self;
     metabolic_pathways_super_classes := metabolic_pathways_super_classes self;
     metabolic_pathways_classes := metabolic_pathways_classes self;
     file_reads := file_reads self |}.

(** The five writes that follow the hierarchy update of a map record:
    [self.maps_and_pathways[map_number] = {...}] and the four [append]s. *)
Definition record_map (number name sc cc : str) (self : PathwayListFile) :=
  {| pathway_file := pathway_file self;
     metabolic_pathways := metabolic_pathways self;
     maps_and_pathways :=
       <[number := MapData name sc cc]> (maps_and_pathways self);
     metabolic_pathways_names := metabolic_pathways_names self ++ [name];
     metabolic_pathways_map_numbers :=
       metabolic_pathways_map_numbers self ++ [number];
     metabolic_pathways_super_classes :=
       metabolic_pathways_super_classes self ++ [sc];
     metabolic_pathways_classes := metabolic_pathways_classes self ++ [cc];
     file_reads := file_reads self |}.

Definition count_read (self : PathwayListFile) :=
  {| pathway_file := pathway_file self;
     metabolic_pathways := metabolic_pathways self;
     maps_and_pathways := maps_and_pathways self;
     metabolic_pathways_names := metabolic_pathways_names self;
     metabolic_pathways_map_numbers := metabolic_pathways_map_numbers self;
     metabolic_pathways_super_classes := metabolic_pathways_super_classes self;
     metabolic_pathways_classes := metabolic_pathways_classes self;
     file_reads := S (file_reads self) |}.

(** ** Methods: state and exceptions *)

(** A method body: it reads and writes the attributes of [self] and either
    returns a value or raises. The attributes survive an exception. *)
Definition M (A : Type) : Type :=
  PathwayListFile → result A * PathwayListFile.

#[global] Instance M_ret : MRet M := λ A a self, (Ok a, self).

#[global] Instance M_bind : MBind M := λ A B k m self,
  match m self with
  | (Ok a, self') => k a self'
  | (Raise e, self') => (Raise e, self')
  end.

Definition raise {A} (e : exn) : M A := λ self, (Raise e, self).
Definition lift {A} (r : result A) : M A := λ self, (r, self).
Definition gets {A} (f : PathwayListFile → A) : M A :=
  λ self, (Ok (f self), self).
Definition modify (f : PathwayListFile → PathwayListFile) : M unit :=
  λ self, (Ok tt, f self).

(** Reading a local variable that may not have been assigned yet. *)
Definition load (name : string) (v : option str) : M str :=
  match v with
  | Some x => mret x
  | None => raise (UnboundLocalError name)
  end.

(** [d[k]] on a dict. *)
Definition subscript {V} (d : gmap str V) (k : str) : M V :=
  match d !! k with
  | Some v => mret v
  | None => raise (KeyError k)
  end.

(** ** The build pass *)

(** The two local variables that [generate_metabolic_pathway_data] carries
    from one line to the next; [None] is "not assigned yet". *)
Record locals := Locals {
  current_super_class : option str;
  current_class : option str
}.

(** The body of the [for line in f] loop. The three [if]s are tried in
    turn, each on [line] as the previous one left it. *)
Definition process_line (raw : str) (lc : locals) : M locals :=
  let line := rstrip_crlf raw in
  '(line, lc) ←
    (if is_metabolic_super_class line then
       let line := remove_hashes line in
       modify (λ self,
         set_metabolic_pathways (<[line := ∅]> (metabolic_pathways self)) self);;
       mret (line, {| current_super_class := Some line;
                      current_class := current_class lc |})
     else mret (line, lc));
  '(line, lc) ←
    (if is_metabolic_class line then
       let line := remove_hashes line in
       h ← gets metabolic_pathways;
       sc ← load "current_super_class" (current_super_class lc);
       classes ← subscript h sc;
       modify (set_metabolic_pathways (<[sc := <[line := ∅]> classes]> h));;
       mret (line, {| current_super_class := current_super_class lc;
                      current_class := Some line |})
     else mret (line, lc));
  if is_metabolic_map_record line then
    map_number ← lift (metabolic_pathway_map_number line);
    map_name ← lift (metabolic_pathway_map_name line);
    h ← gets metabolic_pathways;
    sc ← load "current_super_class" (current_super_class lc);
    classes ← subscript h sc;
    cc ← load "current_class" (current_class lc);
    maps ← subscript classes cc;
    modify (set_metabolic_pathways
              (<[sc := <[cc := <[map_number := map_name]> maps]> classes]> h));;
    modify (record_map map_number map_name sc cc);;
    mret lc
  else mret lc.

Fixpoint for_each_line (lines : list str) (lc : locals) : M locals :=
  match lines with
  | [] => mret lc
  | raw :: rest => lc' ← process_line raw lc; for_each_line rest lc'
  end.

(** [with open(self.pathway_file) as f: for line in f: ...] *)
Definition generate_metabolic_pathway_data : M unit :=
  modify count_read;;
  lines ← gets pathway_file;
  for_each_line lines
    {| current_super_class := None; current_class := None |};;
  mret tt.

(** ** Accessors *)

(** [if len(self.maps_and_pathways) == 0: self.generate_...()] *)
Definition build_if_no_maps : M unit :=
  d ← gets maps_and_pathways;
  if bool_decide (size d = 0%nat) then generate_metabolic_pathway_data
  else mret tt.

Definition get_maps_and_pathways : M (gmap str map_data) :=
  build_if_no_maps;; gets maps_and_pathways.

Definition pathways_and_maps : M (gmap str (gmap str (gmap str str))) :=
  h ← gets metabolic_pathways;
  (if bool_decide (size h = 0%nat) then generate_metabolic_pathway_data
   else mret tt);;
  gets metabolic_pathways.

Definition map_pathway_data_by_map_number (map_number : str) : M map_data :=
  data ← get_maps_and_pathways;
  subscript data map_number.

(** [list(set(l))] *)
Definition list_of_set (l : list str) : list str :=
  elements (list_to_set l : gset str).

Definition pathways_names : M (list str) :=
  build_if_no_maps;;
  l ← gets metabolic_pathways_names; mret (list_of_set l).

Definition pathways_super_classes : M (list str) :=
  build_if_no_maps;;
  l ← gets metabolic_pathways_super_classes; mret (list_of_set l).

Definition pathways_classes : M (list str) :=
  build_if_no_maps;;
  l ← gets metabolic_pathways_classes; mret (list_of_set l).

Definition pathways_map_numbers : M (list str) :=
  build_if_no_maps;;
  l ← gets metabolic_pathways_map_numbers; mret (list_of_set l).

Definition all_pathways : M (gmap str (gmap str (gmap str str))) :=
  build_if_no_maps;; gets metabolic_pathways.

(** ** The build pass, line kind by line kind *)

(** What a raw line is to the loop body. *)
Inductive line_kind :=
  | SuperclassMarker (name : str)
  | ClassMarker (name : str)
  | MapRecord (number name : str)
  | Other.

Definition classify (raw : str) : line_kind :=
  let line := rstrip_crlf raw in
  if is_metabolic_super_class line then SuperclassMarker (remove_hashes line)
  else if is_metabolic_class line then ClassMarker (remove_hashes line)
  else match metabolic_pathway_map_number line,
             metabolic_pathway_map_name line with
       | Ok number, Ok name => MapRecord number name
       | _, _ => Other
       end.

(** The effect of one line of each kind; [process_line_classify] below
    shows that this is what [process_line] does. *)
Definition apply_kind (k : line_kind) (lc : locals) : M locals :=
  λ self,
  let h := metabolic_pathways self in
  match k with
  | SuperclassMarker name =>
      (Ok {| current_super_class := Some name;
             current_class := current_class lc |},
       set_metabolic_pathways (<[name := ∅]> h) self)
  | ClassMarker name =>
      match current_super_class lc with
      | None => (Raise (UnboundLocalError "current_super_class"), self)
      | Some sc =>
          match h !! sc with
          | None => (Raise (KeyError sc), self)
          | Some classes =>
              (Ok {| current_super_class := Some sc;
                     current_class := Some name |},
               set_metabolic_pathways (<[sc := <[name := ∅]> classes]> h) self)
          end
      end
  | MapRecord number name =>
      match current_super_class lc with
      | None => (Raise (UnboundLocalError "current_super_class"), self)
      | Some sc =>
          match h !! sc with
          | None => (Raise (KeyError sc), self)
          | Some classes =>
              match current_class lc with
              | None => (Raise (UnboundLocalError "current_class"), self)
              | Some cc =>
                  match classes !! cc with
                  | None => (Raise (KeyError cc), self)
                  | Some maps =>
                      (Ok lc,
                       record_map number name sc cc
                         (set_metabolic_pathways
                            (<[sc := <[cc := <[number := name]> maps]> classes]> h)
                            self))
                  end
              end
          end
      end
  | Other => (Ok lc, self)
  end.

Fixpoint run (ks : list line_kind) (lc : locals) : M locals :=
  match ks with
  | [] => mret lc
  | k :: rest => lc' ← apply_kind k lc; run rest lc'
  end.

(** The kinds of line that read [current_super_class], and the kind that
    assigns it. *)
Definition needs_super_class (k : line_kind) : Prop :=
  match k with
  | ClassMarker _ | MapRecord _ _ => True
  | _ => False
  end.

Definition is_super_class_marker (k : line_kind) : Prop :=
  match k with
  | SuperclassMarker _ => True
  | _ => False
  end.

Definition no_locals : locals :=
  {| current_super_class := None; current_class := None |}.

(** ** The public accessors, as one family *)

Inductive accessor :=
  | GetMapsAndPathways
  | PathwaysAndMaps
  | MapPathwayDataByMapNumber (map_number : str)
  | PathwaysNames
  | PathwaysSuperClasses
  | PathwaysClasses
  | PathwaysMapNumbers
  | AllPathways.

Inductive view :=
  | Index (d : gmap str map_data)
  | Hierarchy (h : gmap str (gmap str (gmap str str)))
  | Data (r : map_data)
  | Values (l : list str).

Definition call (a : accessor) : M view :=
  match a with
  | GetMapsAndPathways => x ← get_maps_and_pathways; mret (Index x)
  | PathwaysAndMaps => x ← pathways_and_maps; mret (Hierarchy x)
  | MapPathwayDataByMapNumber k => x ← map_pathway_data_by_map_number k; mret (Data x)
  | PathwaysNames => x ← pathways_names; mret (Values x)
  | PathwaysSuperClasses => x ← pathways_super_classes; mret (Values x)
  | PathwaysClasses => x ← pathways_classes; mret (Values x)
  | PathwaysMapNumbers => x ← pathways_map_numbers; mret (Values x)
  | AllPathways => x ← all_pathways; mret (Hierarchy x)
  end.

(** ** What the marker lines declare *)

(** The superclass names that the superclass lines of a file assign, in
    order. *)
Fixpoint declared_super_classes (ks : list line_kind) : list str :=
  match ks with
  | [] => []
  | SuperclassMarker name :: rest => name :: declared_super_classes rest
  | _ :: rest => declared_super_classes rest
  end.

(** The class names that the class lines assign, each with the superclass
    that is current at its line ([cur] at the start). *)
Fixpoint declared_classes (cur : option str) (ks : list line_kind)
    : list (option str * str) :=
  match ks with
  | [] => []
  | SuperclassMarker name :: rest => declared_classes (Some name) rest
  | ClassMarker name :: rest => (cur, name) :: declared_classes cur rest
  | _ :: rest => declared_classes cur rest
  end.

(** Every entry of the flat index is in the hierarchy, under the
    superclass and the class that the entry records. *)
Definition nested (s : PathwayListFile) : Prop :=
  ∀ number rec, maps_and_pathways s !! number = Some rec →
  ∃ classes maps,
    metabolic_pathways s !! superclass rec = Some classes ∧
    classes !! class rec = Some maps ∧
    maps !! number = Some (map_name rec).

(** What holds before each line of a pass over a file whose marker lines
    declare every superclass once and every class once per superclass. *)
Record fresh_markers (lc : locals) (s : PathwayListFile)
    (rest : list line_kind) : Prop := {
  super_classes_once : NoDup (declared_super_classes rest);
  classes_once : NoDup (declared_classes (current_super_class lc) rest);
  super_class_fresh sc :
    is_Some (metabolic_pathways s !! sc) → sc ∉ declared_super_classes rest;
  class_fresh sc classes c :
    metabolic_pathways s !! sc = Some classes → is_Some (classes !! c) →
    (Some sc, c) ∉ declared_classes (current_super_class lc) rest;
  current_present sc :
    current_super_class lc = Some sc → is_Some (metabolic_pathways s !! sc);
  index_nested : nested s
}.

(** ** Accessors as a guarded build followed by a read *)

(** The build an accessor may start: all test the flat index, except
    [pathways_and_maps], which tests the hierarchy. *)
Definition storage_empty (a : accessor) (s : PathwayListFile) : bool :=
  match a with
  | PathwaysAndMaps => bool_decide (size (metabolic_pathways s) = 0%nat)
  | _ => bool_decide (size (maps_and_pathways s) = 0%nat)
  end.

(** What an accessor returns from the attributes once its build is over. *)
Definition view_of (a : accessor) (s : PathwayListFile) : result view :=
  match a with
  | GetMapsAndPathways => Ok (Index (maps_and_pathways s))
  | PathwaysAndMaps | AllPathways => Ok (Hierarchy (metabolic_pathways s))
  | MapPathwayDataByMapNumber k =>
      match maps_and_pathways s !! k with
      | Some r => Ok (Data r)
      | None => Raise (KeyError k)
      end
  | PathwaysNames => Ok (Values (list_of_set (metabolic_pathways_names s)))
  | PathwaysSuperClasses =>
      Ok (Values (list_of_set (metabolic_pathways_super_classes s)))
  | PathwaysClasses =>
      Ok (Values (list_of_set (metabolic_pathways_classes s)))
  | PathwaysMapNumbers =>
      Ok (Values (list_of_set (metabolic_pathways_map_numbers s)))
  end.

(** ** Invariants of the build pass *)

(** What the attributes satisfy at every point of a build pass that was
    started on a new instance. *)
Record consistent (lc : locals) (s : PathwayListFile) : Prop := {
  numbers_are_keys k :
    is_Some (maps_and_pathways s !! k) ↔ k ∈ metabolic_pathways_map_numbers s;
  names_length :
    length (metabolic_pathways_names s)
    = length (metabolic_pathways_map_numbers s);
  super_classes_length :
    length (metabolic_pathways_super_classes s)
    = length (metabolic_pathways_map_numbers s);
  classes_length :
    length (metabolic_pathways_classes s)
    = length (metabolic_pathways_map_numbers s);
  index_super_class_present k r :
    maps_and_pathways s !! k = Some r →
    is_Some (metabolic_pathways s !! superclass r);
  current_super_class_present sc :
    current_super_class lc = Some sc → is_Some (metabolic_pathways s !! sc)
}.

(** Two states that differ in the hierarchy and the read counter at most. *)
Definition same_records (sa sb : PathwayListFile) : Prop :=
  pathway_file sa = pathway_file sb ∧
  maps_and_pathways sa = maps_and_pathways sb ∧
  metabolic_pathways_names sa = metabolic_pathways_names sb ∧
  metabolic_pathways_map_numbers sa = metabolic_pathways_map_numbers sb ∧
  metabolic_pathways_super_classes sa = metabolic_pathways_super_classes sb ∧
  metabolic_pathways_classes sa = metabolic_pathways_classes sb.

(** The sample inputs used below. *)

(** Lines as the file yields them: each with its line feed. *)
Definition file_of (ls : list string) : list str :=
  map (λ s, py s ++ [LF]) ls.

Definition TAB : N := 9.

(** A map record whose number and name are separated by two tabs. *)
Definition two_tab_line : str :=
  py "01100" ++ [TAB; TAB] ++ py "Metabolic pathways".

(** A superclass, a class and a map record with a tab after its number. *)
Definition scenario_file : list str :=
  [py "#Metabolism" ++ [LF]; py "##Global and overview maps" ++ [LF];
   py "01100" ++ [TAB] ++ py "Metabolic pathways" ++ [LF]].

(** A file whose first map record comes before its first superclass. *)
Definition headless_file : list str :=
  file_of ["pathway list"; "01100   Metabolic pathways"; "#Metabolism"]%string.

(** A file that names the superclass of a recorded map a second time. *)
Definition repeated_super_class_file : list str :=
  file_of ["#Metabolism"; "##Global and overview maps";
           "01100   Metabolic pathways"; "#Metabolism"]%string.

(** The state after the first line of that file. *)
Definition after_super_class_line : PathwayListFile :=
  (process_line (py "#Metabolism" ++ [LF]) no_locals
     (__init__ repeated_super_class_file)).2.

(** A file that names the class of a recorded map a second time. *)
Definition repeated_class_file : list str :=
  file_of ["#Metabolism"; "##Global and overview maps";
           "01100   Metabolic pathways";
           "##Global and overview maps"]%string.

(** A file with markers and no map record. *)
Definition markers_only_file : list str :=
  file_of ["#Metabolism"; "##Global and overview maps"]%string.

(** A file in which a name, a superclass and a class recur. *)
Definition recurring_values_file : list str :=
  file_of ["#Metabolism"; "##Global and overview maps";
           "01100   Metabolic pathways"; "01101   Metabolic pathways";
           "01100   Metabolic pathways"]%string.

(** The state that a build pass over that file leaves, and its hierarchy. *)
Definition recurring_values_state : PathwayListFile :=
  (generate_metabolic_pathway_data (__init__ recurring_values_file)).2.

Definition recurring_values_hierarchy : gmap str (gmap str (gmap str str)) :=
  {[ py "Metabolism" :=
       {[ py "Global and overview maps" :=
            {[ py "01100" := py "Metabolic pathways";
               py "01101" := py "Metabolic pathways" ]} ]} ]}.

(** The list attribute behind each of the four distinct-value accessors. *)
Definition values_attribute (a : accessor)
    : option (PathwayListFile → list str) :=
  match a with
  | PathwaysNames => Some metabolic_pathways_names
  | PathwaysSuperClasses => Some metabolic_pathways_super_classes
  | PathwaysClasses => Some metabolic_pathways_classes
  | PathwaysMapNumbers => Some metabolic_pathways_map_numbers
  | _ => None
  end.

(** ** Further vocabulary for the build pass *)

(** A line that passes none of the three checks of the loop body. *)
Definition is_ignored (raw : str) : Prop :=
  is_metabolic_super_class (rstrip_crlf raw) = false ∧
  is_metabolic_class (rstrip_crlf raw) = false ∧
  is_metabolic_map_record (rstrip_crlf raw) = false.

(** The number and the name of a raw line, if it is a map record. *)
Definition map_record_of (raw : str) : option (str * str) :=
  match metabolic_pathway_map_number (rstrip_crlf raw),
        metabolic_pathway_map_name (rstrip_crlf raw) with
  | Ok number, Ok name => Some (number, name)
  | _, _ => None
  end.

Definition kind_record (k : line_kind) : option (str * str) :=
  match k with
  | MapRecord number name => Some (number, name)
  | _ => None
  end.

(** The class names that the class lines assign, in order. *)
Definition declared_class_names (ks : list line_kind) : list str :=
  omap (λ k, match k with ClassMarker name => Some name | _ => None end) ks.

(** Where a line stands: before the first superclass line, after a
    superclass line that no class line has followed yet, or after a class
    line of the current superclass. *)
Inductive context := NoSuperClass | NoClass | InClass.

(** The files that respect the hierarchy: no class line before the first
    superclass line, no map record outside a class of the current
    superclass. *)
Fixpoint well_formed (ctx : context) (ks : list line_kind) : bool :=
  match ks with
  | [] => true
  | SuperclassMarker _ :: rest => well_formed NoClass rest
  | ClassMarker _ :: rest =>
      match ctx with
      | NoSuperClass => false
      | _ => well_formed InClass rest
      end
  | MapRecord _ _ :: rest =>
      match ctx with
      | InClass => well_formed InClass rest
      | _ => false
      end
  | Other :: rest => well_formed ctx rest
  end.

(** What a context means for the local variables and the hierarchy. *)
Definition in_context (ctx : context) (lc : locals) (s : PathwayListFile)
    : Prop :=
  match ctx with
  | NoSuperClass => current_super_class lc = None
  | NoClass =>
      ∃ sc classes,
        current_super_class lc = Some sc ∧
        metabolic_pathways s !! sc = Some classes ∧
        ∀ c, current_class lc = Some c → classes !! c = None
  | InClass =>
      ∃ sc classes c,
        current_super_class lc = Some sc ∧
        metabolic_pathways s !! sc = Some classes ∧
        current_class lc = Some c ∧ is_Some (classes !! c)
  end.

(** The shape of the names and numbers that a line can contribute: a
    marker name has no ['#'] and starts with a capital letter, a map
    number is a non-empty digit string. *)
Definition is_marker_name (name : str) : Prop :=
  (HASH ∉ name) ∧ ∃ c r, name = c :: r ∧ 65 ≤ c ≤ 90.

Definition is_map_number (number : str) : Prop :=
  number ≠ [] ∧ Forall (λ c, 48 ≤ c ≤ 57) number.

Definition valid_kind (k : line_kind) : Prop :=
  match k with
  | SuperclassMarker name | ClassMarker name => is_marker_name name
  | MapRecord number _ => is_map_number number
  | Other => True
  end.

(** The keys of the hierarchy and of the flat index have these shapes. *)
Definition keys_shaped (s : PathwayListFile) : Prop :=
  (∀ k, is_Some (maps_and_pathways s !! k) → is_map_number k) ∧
  (∀ sc classes, metabolic_pathways s !! sc = Some classes →
     is_marker_name sc ∧
     ∀ c maps, classes !! c = Some maps →
       is_marker_name c ∧ ∀ n, is_Some (maps !! n) → is_map_number n).

(** Every entry of the flat index shows in the three lists, and every
    listed superclass is a key of the hierarchy. *)
Definition index_listed (s : PathwayListFile) : Prop :=
  (∀ k rec, maps_and_pathways s !! k = Some rec →
     map_name rec ∈ metabolic_pathways_names s ∧
     superclass rec ∈ metabolic_pathways_super_classes s ∧
     class rec ∈ metabolic_pathways_classes s) ∧
  (∀ sc, sc ∈ metabolic_pathways_super_classes s →
     is_Some (metabolic_pathways s !! sc)).

(** Every map of the hierarchy has its number in the flat index and in
    the list of numbers, and its name in the list of names. *)
Definition hierarchy_indexed (s : PathwayListFile) : Prop :=
  ∀ sc classes c maps n name,
    metabolic_pathways s !! sc = Some classes →
    classes !! c = Some maps → maps !! n = Some name →
    is_Some (maps_and_pathways s !! n) ∧
    n ∈ metabolic_pathways_map_numbers s ∧
    name ∈ metabolic_pathways_names s.

(** The kinds of line that need no context. *)
Definition super_class_or_ignored (k : line_kind) : Prop :=
  match k with
  | SuperclassMarker _ | Other => True
  | _ => False
  end.

(** A file whose map record comes after a superclass line and before any
    class line. *)
Definition classless_file : list str :=
  file_of ["#Metabolism"; "01100   Metabolic pathways";
           "##Global and overview maps"]%string.

(** A file whose second superclass has a map record and no class line. *)
Definition stale_class_file : list str :=
  file_of ["#Metabolism"; "##Global and overview maps";
           "01100   Metabolic pathways"; "#Genetic Information Processing";
           "03020   RNA polymerase"]%string.

(** A file of lines that the loop body ignores. *)
Definition ignored_lines_file : list str :=
  file_of [""; "pathway list"; "## lower case"; "123"; "#9 digits"]%string.

(** ** The life of an instance *)



(** * Properties *)

(** ** The unit tests of the repository on the line functions *)

Example test_is_metabolic_super_class :
  is_metabolic_super_class (py "#Organismal Systems") = true.
Proof. reflexivity. Qed.

Example test_is_metabolic_class :
  is_metabolic_class (py "##Immune system") = true.
Proof. reflexivity. Qed.

Example test_is_metabolic_map_record :
  is_metabolic_map_record (py "07231   Sodium channel blocking drugs") = true.
Proof. reflexivity. Qed.

Example test_metabolic_pathway_pathway_map_number :
  metabolic_pathway_map_number (py "07231   Sodium channel blocking drugs")
  = Ok (py "07231").
Proof. reflexivity. Qed.

Example test_metabolic_pathway_pathway_map_name :
  metabolic_pathway_map_name (py "07231   Sodium channel blocking drugs")
  = Ok (py "Sodium channel blocking drugs").
Proof. reflexivity. Qed.

(** The scenario of the format description: one superclass, one class
    and one map record, with a tab between number and name. *)
Example scenario_build :
  metabolic_pathways
    (generate_metabolic_pathway_data (__init__ scenario_file)).2
    !! py "Metabolism"
  = Some {[ py "Global and overview maps" :=
              {[ py "01100" := py "Metabolic pathways" ]} ]} ∧
  maps_and_pathways
    (generate_metabolic_pathway_data (__init__ scenario_file)).2
    !! py "01100"
  = Some {| map_name := py "Metabolic pathways";
            superclass := py "Metabolism";
            class := py "Global and overview maps" |}.
Proof. split; vm_compute; reflexivity. Qed.

(** ** Characters and scanning *)

Lemma is_digit_bounds c : is_digit c = true ↔ 48 ≤ c ≤ 57.
Proof.
  unfold is_digit. rewrite andb_true_iff, !N.leb_le. tauto.
Qed.

Lemma is_upper_bounds c : is_upper c = true ↔ 65 ≤ c ≤ 90.
Proof.
  unfold is_upper. rewrite andb_true_iff, !N.leb_le. tauto.
Qed.

(** No digit is a whitespace character: the digit run of the map-record
    patterns cannot be cut short. *)
Lemma digit_not_space c : is_digit c = true → is_space c = false.
Proof.
  intros [Hlo Hhi]%is_digit_bounds. unfold is_space.
  repeat (apply orb_false_iff; split);
    first [ apply andb_false_iff; rewrite !N.leb_gt; lia
          | apply N.eqb_neq; lia ].
Qed.

Lemma upper_not_hash c : is_upper c = true → (c =? HASH) = false.
Proof.
  intros [Hlo Hhi]%is_upper_bounds. apply N.eqb_neq. unfold HASH. lia.
Qed.

Lemma upper_not_digit c : is_upper c = true → is_digit c = false.
Proof.
  intros [Hlo Hhi]%is_upper_bounds. unfold is_digit.
  apply andb_false_iff. rewrite !N.leb_gt. lia.
Qed.

Section scanning.
Context {A : Type} (p : A → bool).

Lemma take_drop_while l : take_while p l ++ drop_while p l = l.
Proof.
  induction l as [|x l IH]; simpl; [done|].
  destruct (p x); simpl; [by rewrite IH | done].
Qed.

Lemma take_while_all l : Forall (λ x, p x = true) (take_while p l).
Proof.
  induction l as [|x l IH]; simpl; [constructor|].
  destruct (p x) eqn:Hx; by constructor.
Qed.

Lemma drop_while_head l x : head (drop_while p l) = Some x → p x = false.
Proof.
  induction l as [|y l IH]; simpl; [done|].
  destruct (p y) eqn:Hy; simpl; [done | congruence].
Qed.

Lemma take_while_stop l x r :
  Forall (λ y, p y = true) l → p x = false →
  take_while p (l ++ x :: r) = l.
Proof.
  intros Hl Hx. induction Hl as [|y l Hy _ IH]; simpl.
  - by rewrite Hx.
  - by rewrite Hy, IH.
Qed.

Lemma drop_while_stop l x r :
  Forall (λ y, p y = true) l → p x = false →
  drop_while p (l ++ x :: r) = x :: r.
Proof.
  intros Hl Hx. induction Hl as [|y l Hy _ IH]; simpl.
  - by rewrite Hx.
  - by rewrite Hy.
Qed.
End scanning.

(** The prefix of the map-record patterns on a line that has the shape
    digits, whitespace character, anything. *)
Lemma re_map_prefix_shape (digits : str) (w : N) (rest : str) :
  digits ≠ [] → Forall (λ c, is_digit c = true) digits → is_space w = true →
  re_map_prefix (digits ++ w :: rest) = Some (digits, rest).
Proof.
  intros Hne Hd Hw. unfold re_map_prefix.
  assert (is_digit w = false) as Hnd.
  { destruct (is_digit w) eqn:E; [|done].
    apply digit_not_space in E. congruence. }
  rewrite take_while_stop, drop_while_stop by done.
  destruct digits; [done|]. by rewrite Hw.
Qed.

(** Conversely, a match of the prefix exhibits that shape. *)
Lemma re_map_prefix_inv (s digits tail : str) :
  re_map_prefix s = Some (digits, tail) →
  ∃ w, s = digits ++ w :: tail ∧ digits ≠ [] ∧
       Forall (λ c, is_digit c = true) digits ∧ is_space w = true.
Proof.
  unfold re_map_prefix. intros H.
  pose proof (take_drop_while is_digit s) as Hs.
  pose proof (take_while_all is_digit s) as Hall.
  destruct (take_while is_digit s) as [|d ds]; [done|].
  destruct (drop_while is_digit s) as [|w tl]; [done|].
  destruct (is_space w) eqn:Hw; [|done].
  injection H as <- <-. exists w. by rewrite Hs.
Qed.

(** A line splits into digit run, whitespace character and remainder in
    one way at most: whatever the order in which a matcher tries the
    lengths of the digit run, group 1 is the same. *)
Lemma map_record_split_unique (d1 d2 : str) (w1 w2 : N) (t1 t2 : str) :
  d1 ++ w1 :: t1 = d2 ++ w2 :: t2 →
  d1 ≠ [] → Forall (λ c, is_digit c = true) d1 → is_space w1 = true →
  d2 ≠ [] → Forall (λ c, is_digit c = true) d2 → is_space w2 = true →
  d1 = d2 ∧ w1 = w2 ∧ t1 = t2.
Proof.
  intros Heq Hn1 Hd1 Hw1 Hn2 Hd2 Hw2.
  pose proof (re_map_prefix_shape d1 w1 t1 Hn1 Hd1 Hw1) as H1.
  pose proof (re_map_prefix_shape d2 w2 t2 Hn2 Hd2 Hw2) as H2.
  rewrite Heq, H2 in H1. injection H1 as -> ->.
  apply app_inv_head in Heq. by injection Heq as ->.
Qed.

(** ** C1: the two marker checks *)

(** C1. The superclass check holds exactly for the lines that start with
    one ['#'] and then a capital ASCII letter, the class check exactly for
    those that start with ['##'] and then a capital ASCII letter; a class
    line passes the class check and fails the superclass check, and no
    line passes both. *)
Theorem marker_checks (s : str) :
  (is_metabolic_super_class s = true ↔
     ∃ c rest, s = HASH :: c :: rest ∧ 65 ≤ c ≤ 90) ∧
  (is_metabolic_class s = true ↔
     ∃ c rest, s = HASH :: HASH :: c :: rest ∧ 65 ≤ c ≤ 90) ∧
  (∀ c rest, 65 ≤ c ≤ 90 →
     is_metabolic_class (HASH :: HASH :: c :: rest) = true ∧
     is_metabolic_super_class (HASH :: HASH :: c :: rest) = false) ∧
  ¬ (is_metabolic_super_class s = true ∧ is_metabolic_class s = true).
Proof.
  split; [|split; [|split]].
  - unfold is_metabolic_super_class. split.
    + destruct s as [|h [|c rest]]; [done..|].
      intros [->%N.eqb_eq Hc%is_upper_bounds]%andb_true_iff. eauto.
    + intros (c & rest & -> & Hc%is_upper_bounds). by rewrite Hc.
  - unfold is_metabolic_class. split.
    + destruct s as [|h1 [|h2 [|c rest]]]; [done..|].
      intros [[->%N.eqb_eq ->%N.eqb_eq]%andb_true_iff Hc%is_upper_bounds]%andb_true_iff.
      eauto.
    + intros (c & rest & -> & Hc%is_upper_bounds). by rewrite Hc.
  - intros c rest Hc%is_upper_bounds. simpl. by rewrite Hc.
  - unfold is_metabolic_super_class, is_metabolic_class.
    destruct s as [|h1 [|h2 [|c rest]]]; try (intros [? ?]; done).
    intros [[_ H2%upper_not_hash]%andb_true_iff
            [[_ E]%andb_true_iff _]%andb_true_iff].
    congruence.
Qed.

Lemma marker_checks_witness :
  is_metabolic_class (py "##Immune system") = true ∧
  is_metabolic_super_class (py "##Immune system") = false.
Proof.
  apply (proj1 (proj2 (proj2 (marker_checks [])))).
  vm_compute. split; discriminate.
Defined.

(** ** C3: the map number *)

(** C3. On a line made of a non-empty run of decimal digits, a whitespace
    character and anything after it, the line is a map record and the map
    number is that digit run, every digit kept. *)
Theorem map_number_is_digit_run (digits : str) (w : N) (rest : str) :
  digits ≠ [] → Forall (λ c, 48 ≤ c ≤ 57) digits → is_space w = true →
  is_metabolic_map_record (digits ++ w :: rest) = true ∧
  metabolic_pathway_map_number (digits ++ w :: rest) = Ok digits.
Proof.
  intros Hne Hd Hw.
  unfold is_metabolic_map_record, metabolic_pathway_map_number.
  rewrite re_map_prefix_shape; [done..| |done].
  eapply Forall_impl; [exact Hd|]. intros c. apply is_digit_bounds.
Qed.

Lemma map_number_is_digit_run_witness :
  is_metabolic_map_record (py "07231   Sodium channel blocking drugs") = true ∧
  metabolic_pathway_map_number (py "07231   Sodium channel blocking drugs")
  = Ok (py "07231").
Proof.
  apply (map_number_is_digit_run (py "07231") SPACE
           (py "  Sodium channel blocking drugs")).
  - discriminate.
  - vm_compute. repeat constructor; discriminate.
  - reflexivity.
Defined.

(** ** C4: the map name *)

(** C4 as stated fails on a record separated by two tabs: not all
    leading whitespace is stripped; the first tab is the separator the pattern
    asks for, the second one stays at the head of the name. *)
Lemma map_name_keeps_second_tab :
  is_metabolic_map_record two_tab_line = true ∧
  metabolic_pathway_map_name two_tab_line
    = Ok (TAB :: py "Metabolic pathways") ∧
  metabolic_pathway_map_name two_tab_line ≠ Ok (py "Metabolic pathways").
Proof.
  split; [reflexivity|]. split; [reflexivity|]. discriminate.
Qed.

(** C4, amended. On a line made of a non-empty digit run, a whitespace
    character and a remainder, the map name is the remainder up to its
    first line feed (the whole remainder if it has none), without the
    U+0020 characters it starts with and otherwise unchanged: what
    follows the digit run loses one whitespace character of any kind and
    then leading spaces only. *)
Theorem map_name_strips_separator_and_spaces (digits : str) (w : N) (rest : str) :
  digits ≠ [] → Forall (λ c, 48 ≤ c ≤ 57) digits → is_space w = true →
  ∃ spaces name cut,
    rest = spaces ++ name ++ cut ∧
    Forall (λ c, c = SPACE) spaces ∧
    head name ≠ Some SPACE ∧
    (LF ∉ spaces ++ name) ∧
    (cut = [] ∨ head cut = Some LF) ∧
    metabolic_pathway_map_name (digits ++ w :: rest) = Ok name.
Proof.
  intros Hne Hd Hw. unfold metabolic_pathway_map_name.
  rewrite re_map_prefix_shape; [|done| |done].
  2: { eapply Forall_impl; [exact Hd|]. intros c. apply is_digit_bounds. }
  set (not_lf := λ c : N, negb (c =? LF)).
  set (sp := λ c : N, c =? SPACE).
  exists (take_while sp (take_while not_lf rest)),
         (drop_while sp (take_while not_lf rest)),
         (drop_while not_lf rest).
  split_and!; [| | | | |done].
  - by rewrite app_assoc, !take_drop_while.
  - eapply Forall_impl; [apply take_while_all|].
    intros c. unfold sp. by intros ->%N.eqb_eq.
  - intros Hh%drop_while_head. by vm_compute in Hh.
  - rewrite take_drop_while. intros Hin.
    pose proof (take_while_all not_lf rest) as Hall.
    rewrite Forall_forall in Hall. apply Hall in Hin. by vm_compute in Hin.
  - destruct (drop_while not_lf rest) as [|c tl] eqn:E; [by left|right].
    assert (not_lf c = false) as Hc by (apply (drop_while_head not_lf rest); by rewrite E).
    unfold not_lf in Hc. apply negb_false_iff, N.eqb_eq in Hc. by subst.
Qed.

Lemma map_name_strips_separator_and_spaces_witness :
  ∃ spaces name cut,
    py "  Sodium channel blocking drugs" = spaces ++ name ++ cut ∧
    Forall (λ c, c = SPACE) spaces ∧
    head name ≠ Some SPACE ∧
    (LF ∉ spaces ++ name) ∧
    (cut = [] ∨ head cut = Some LF) ∧
    metabolic_pathway_map_name (py "07231   Sodium channel blocking drugs")
      = Ok name.
Proof.
  apply (map_name_strips_separator_and_spaces (py "07231") SPACE
           (py "  Sodium channel blocking drugs")).
  - discriminate.
  - vm_compute. repeat constructor; discriminate.
  - reflexivity.
Defined.

(** ** The loop body by cases *)

Ltac unfold_M :=
  unfold mbind, mret, M_bind, M_ret, modify, gets, lift, raise, load,
    subscript in *.

(** A marker line without its ['#'] starts with the capital letter that
    made it a marker: it is neither a class marker nor a map record. *)
Lemma super_class_name_head (line : str) :
  is_metabolic_super_class line = true →
  ∃ c r, remove_hashes line = c :: r ∧ is_upper c = true.
Proof.
  destruct line as [|h [|c rest]]; [done..|]. simpl.
  intros [->%N.eqb_eq Hc]%andb_true_iff.
  exists c, (remove_hashes rest). split; [|done].
  pose proof (upper_not_hash c Hc) as Hne%N.eqb_neq.
  unfold remove_hashes. rewrite filter_cons_False by (intros ?; done).
  by rewrite filter_cons_True.
Qed.

Lemma class_name_head (line : str) :
  is_metabolic_class line = true →
  ∃ c r, remove_hashes line = c :: r ∧ is_upper c = true.
Proof.
  destruct line as [|h1 [|h2 [|c rest]]]; [done..|]. simpl.
  intros [[->%N.eqb_eq ->%N.eqb_eq]%andb_true_iff Hc]%andb_true_iff.
  exists c, (remove_hashes rest). split; [|done].
  pose proof (upper_not_hash c Hc) as Hne%N.eqb_neq.
  unfold remove_hashes. rewrite !filter_cons_False by (intros ?; done).
  by rewrite filter_cons_True.
Qed.

Lemma upper_head_not_class c r :
  is_upper c = true → is_metabolic_class (c :: r) = false.
Proof.
  intros Hc%upper_not_hash. destruct r as [|h2 [|c' r]]; simpl; [done..|].
  by rewrite Hc.
Qed.

Lemma upper_head_not_map_record c r :
  is_upper c = true → re_map_prefix (c :: r) = None.
Proof.
  intros Hc%upper_not_digit. unfold re_map_prefix. simpl. by rewrite Hc.
Qed.

Lemma class_not_super_class (line : str) :
  is_metabolic_class line = true → is_metabolic_super_class line = false.
Proof.
  destruct line as [|h1 [|h2 [|c rest]]]; [done..|]. simpl.
  intros [[_ ->%N.eqb_eq]%andb_true_iff _]%andb_true_iff.
  apply andb_false_r.
Qed.

(** [process_line] does to the state what [apply_kind] says for the kind
    of the line. *)
Lemma process_line_classify raw lc self :
  process_line raw lc self = apply_kind (classify raw) lc self.
Proof.
  unfold process_line, classify, is_metabolic_map_record,
    metabolic_pathway_map_number, metabolic_pathway_map_name.
  set (line := rstrip_crlf raw). unfold_M.
  destruct (is_metabolic_super_class line) eqn:Hs.
  { destruct (super_class_name_head line Hs) as (c & r & Hn & Hc).
    simpl. rewrite Hn.
    rewrite (upper_head_not_class c r Hc), (upper_head_not_map_record c r Hc).
    done. }
  simpl. destruct (is_metabolic_class line) eqn:Hc.
  { destruct (class_name_head line Hc) as (c & r & Hn & Hu).
    simpl. rewrite Hn.
    destruct lc as [[sc|] cc]; simpl; [|done].
    destruct (metabolic_pathways self !! sc); simpl; [|done].
    by rewrite (upper_head_not_map_record c r Hu). }
  simpl. destruct (re_map_prefix line) as [[number tail]|]; [|done].
  destruct lc as [[sc|] [cc|]]; simpl; try done;
    destruct (metabolic_pathways self !! sc) as [classes|]; simpl; try done.
  by destruct (classes !! cc).
Qed.

Lemma for_each_line_run lines lc self :
  for_each_line lines lc self = run (map classify lines) lc self.
Proof.
  revert lc self. induction lines as [|raw lines IH]; intros lc self; [done|].
  simpl. unfold mbind, M_bind. rewrite process_line_classify.
  destruct (apply_kind (classify raw) lc self) as [[lc'|e] self']; [|done].
  apply IH.
Qed.

(** ** Which lines are of which kind *)

Lemma map_record_not_marker (line : str) p :
  re_map_prefix line = Some p →
  is_metabolic_super_class line = false ∧ is_metabolic_class line = false.
Proof.
  destruct p as [digits tail].
  intros (w & -> & Hne & Hd & _)%re_map_prefix_inv.
  destruct digits as [|d ds]; [done|].
  apply Forall_cons in Hd as [Hd _].
  assert ((d =? HASH) = false) as Hh.
  { apply is_digit_bounds in Hd. apply N.eqb_neq. unfold HASH. lia. }
  split; simpl.
  - destruct (ds ++ w :: tail); [done|]. by rewrite Hh.
  - destruct (ds ++ w :: tail) as [|? [|? ?]]; [done..|]. by rewrite Hh.
Qed.

Lemma classify_super_class raw name :
  classify raw = SuperclassMarker name ↔
  is_metabolic_super_class (rstrip_crlf raw) = true ∧
  name = remove_hashes (rstrip_crlf raw).
Proof.
  unfold classify. split.
  - intros H. repeat case_match; by simplify_eq.
  - intros [-> ->]. done.
Qed.

Lemma classify_class raw name :
  classify raw = ClassMarker name ↔
  is_metabolic_class (rstrip_crlf raw) = true ∧
  name = remove_hashes (rstrip_crlf raw).
Proof.
  unfold classify. split.
  - intros H. repeat case_match; by simplify_eq.
  - intros [Hc ->]. by rewrite (class_not_super_class _ Hc), Hc.
Qed.

Lemma classify_map_record raw number name :
  classify raw = MapRecord number name ↔
  metabolic_pathway_map_number (rstrip_crlf raw) = Ok number ∧
  metabolic_pathway_map_name (rstrip_crlf raw) = Ok name.
Proof.
  unfold classify. split.
  - intros H. repeat case_match; by simplify_eq.
  - intros [Hn Hm]. rewrite Hn, Hm.
    unfold metabolic_pathway_map_number in Hn.
    destruct (re_map_prefix (rstrip_crlf raw)) as [p|] eqn:E; [|done].
    destruct (map_record_not_marker _ _ E) as [-> ->]. done.
Qed.

Lemma is_map_record_classify raw :
  is_metabolic_map_record (rstrip_crlf raw) = true →
  ∃ number name, classify raw = MapRecord number name.
Proof.
  unfold is_metabolic_map_record.
  destruct (re_map_prefix (rstrip_crlf raw)) as [[digits tail]|] eqn:E; [|done].
  intros _. eexists _, _. apply classify_map_record.
  unfold metabolic_pathway_map_number, metabolic_pathway_map_name.
  rewrite E. done.
Qed.

(** ** Steps and runs *)

(** Every exception of the loop body is raised before it writes. *)
Lemma apply_kind_raise k lc s e s' :
  apply_kind k lc s = (Raise e, s') → s' = s.
Proof.
  unfold apply_kind. intros H.
  destruct k; repeat case_match; by simplify_eq.
Qed.

(** The loop body touches neither the file nor the read counter. *)
Lemma apply_kind_file k lc s r s' :
  apply_kind k lc s = (r, s') →
  pathway_file s' = pathway_file s ∧ file_reads s' = file_reads s.
Proof.
  unfold apply_kind. intros H.
  destruct k; repeat case_match; by simplify_eq.
Qed.

(** A property of the locals and the attributes that every successful
    step keeps holds where a run stops, whether it returns or raises. *)
Lemma run_preserves (P : locals → PathwayListFile → Prop) :
  (∀ k lc s lc' s', P lc s → apply_kind k lc s = (Ok lc', s') → P lc' s') →
  ∀ ks lc s r s', P lc s → run ks lc s = (r, s') →
  ∃ lc', P lc' s' ∧ ∀ lc'', r = Ok lc'' → lc'' = lc'.
Proof.
  intros Hstep ks. induction ks as [|k ks IH]; intros lc s r s' HP Hrun.
  - injection Hrun as <- <-. exists lc. split; [done|]. by intros ? [= ->].
  - simpl in Hrun. unfold mbind, M_bind in Hrun.
    destruct (apply_kind k lc s) as [[lc1|e] s1] eqn:E.
    + eapply IH; [|exact Hrun]. eapply Hstep; eauto.
    + injection Hrun as <- <-. apply apply_kind_raise in E as ->.
      exists lc. split; [done|]. by intros ? [=].
Qed.

Lemma run_file ks lc s r s' :
  run ks lc s = (r, s') →
  pathway_file s' = pathway_file s ∧ file_reads s' = file_reads s.
Proof.
  intros Hrun.
  pose (P := λ (_ : locals) t,
    pathway_file t = pathway_file s ∧ file_reads t = file_reads s).
  assert (∀ k lc1 s1 lc2 s2,
    P lc1 s1 → apply_kind k lc1 s1 = (Ok lc2, s2) → P lc2 s2) as Hstep.
  { intros k lc1 s1 lc2 s2 [H1 H2] E. apply apply_kind_file in E as [E1 E2].
    unfold P. split; congruence. }
  destruct (run_preserves P Hstep ks lc s r s') as (lc' & H & _); done.
Qed.

(** What [generate_metabolic_pathway_data] is in terms of [run]. *)
Lemma generate_run s :
  generate_metabolic_pathway_data s =
  match run (map classify (pathway_file s)) no_locals (count_read s) with
  | (Ok _, s') => (Ok (), s')
  | (Raise e, s') => (Raise e, s')
  end.
Proof.
  unfold generate_metabolic_pathway_data. unfold_M. simpl.
  rewrite for_each_line_run. fold no_locals.
  by destruct (run _ _ _) as [[?|?] ?].
Qed.

(** ** C9: records before any superclass *)

Lemma run_without_super_class pre k post cc s :
  Forall (λ k', ¬ is_super_class_marker k') pre → needs_super_class k →
  run (pre ++ k :: post) {| current_super_class := None; current_class := cc |} s
  = (Raise (UnboundLocalError "current_super_class"), s).
Proof.
  intros Hpre Hk. induction Hpre as [|k' pre Hk' _ IH]; simpl.
  - by destruct k.
  - unfold mbind, M_bind. destruct k'; simpl; done.
Qed.

(** C9. If a class marker line or a map record line comes before every
    superclass marker line of the file, the build pass raises the
    unbound-variable error for the current superclass, and it has written
    nothing by then: no attribute holds an entry for that line or any
    other. *)
Theorem record_before_super_class_raises (file pre post : list str) (raw : str) :
  file = pre ++ raw :: post →
  (∀ l, l ∈ pre → is_metabolic_super_class (rstrip_crlf l) = false) →
  is_metabolic_class (rstrip_crlf raw) = true ∨
    is_metabolic_map_record (rstrip_crlf raw) = true →
  generate_metabolic_pathway_data (__init__ file)
  = (Raise (UnboundLocalError "current_super_class"),
     count_read (__init__ file)).
Proof.
  intros -> Hpre Hraw. rewrite generate_run. simpl pathway_file.
  rewrite map_app. simpl map. unfold no_locals.
  rewrite run_without_super_class; [done| |].
  - apply Forall_forall. intros k (l & -> & Hl)%list_elem_of_fmap.
    destruct (classify l) eqn:E; simpl; try tauto.
    apply classify_super_class in E as [E _].
    rewrite (Hpre l Hl) in E. done.
  - destruct Hraw as [Hc | Hm].
    + assert (classify raw = ClassMarker (remove_hashes (rstrip_crlf raw))) as ->
        by by apply classify_class.
      done.
    + destruct (is_map_record_classify raw Hm) as (n & m & ->). done.
Qed.

Lemma record_before_super_class_raises_witness :
  generate_metabolic_pathway_data (__init__ headless_file)
  = (Raise (UnboundLocalError "current_super_class"),
     count_read (__init__ headless_file)).
Proof.
  apply (record_before_super_class_raises _
           (file_of ["pathway list"]%string) (file_of ["#Metabolism"]%string)
           (py "01100   Metabolic pathways" ++ [LF])).
  - reflexivity.
  - intros l ->%list_elem_of_singleton. reflexivity.
  - right. reflexivity.
Defined.

(** ** C2: marker lines and the hierarchy *)

(** C2 as stated fails: a marker line does not leave an entry that is
    already there alone. The second [#Metabolism] line replaces the entry
    that holds the class and the map recorded so far by an empty one. *)
Lemma repeated_super_class_resets_entry :
  metabolic_pathways
    (for_each_line (take 3 repeated_super_class_file) no_locals
       (__init__ repeated_super_class_file)).2
    !! py "Metabolism"
  = Some {[ py "Global and overview maps" :=
              {[ py "01100" := py "Metabolic pathways" ]} ]} ∧
  (generate_metabolic_pathway_data (__init__ repeated_super_class_file)).1
  = Ok () ∧
  metabolic_pathways
    (generate_metabolic_pathway_data (__init__ repeated_super_class_file)).2
    !! py "Metabolism"
  = Some ∅.
Proof. split_and!; vm_compute; reflexivity. Qed.

(** C2, amended. A superclass line always binds its name to a new empty
    entry of the hierarchy, whatever was recorded under that name, and
    leaves the entries of all other superclasses as they are. A class
    line, when the current superclass is assigned and present in the
    hierarchy, always binds its name to a new empty entry under the
    current superclass and leaves the other classes of that superclass
    and all other superclasses as they are. *)
Theorem marker_line_binds_empty_entry (raw : str) (lc : locals)
    (self : PathwayListFile) :
  let line := rstrip_crlf raw in
  let name := remove_hashes line in
  (is_metabolic_super_class line = true →
   ∃ self',
     process_line raw lc self
     = (Ok {| current_super_class := Some name;
              current_class := current_class lc |}, self') ∧
     metabolic_pathways self' !! name = Some ∅ ∧
     ∀ other, other ≠ name →
       metabolic_pathways self' !! other = metabolic_pathways self !! other) ∧
  (is_metabolic_class line = true →
   ∀ sc classes,
     current_super_class lc = Some sc →
     metabolic_pathways self !! sc = Some classes →
     ∃ self' classes',
       process_line raw lc self
       = (Ok {| current_super_class := Some sc;
                current_class := Some name |}, self') ∧
       metabolic_pathways self' !! sc = Some classes' ∧
       classes' !! name = Some ∅ ∧
       (∀ c, c ≠ name → classes' !! c = classes !! c) ∧
       ∀ other, other ≠ sc →
         metabolic_pathways self' !! other = metabolic_pathways self !! other).
Proof.
  intros line name. split.
  - intros Hs. rewrite process_line_classify.
    assert (classify raw = SuperclassMarker name) as ->
      by by apply classify_super_class.
    eexists. split; [reflexivity|]. simpl. split.
    + apply lookup_insert_eq.
    + intros other Hne. by apply lookup_insert_ne.
  - intros Hc sc classes Hsc Hcl. rewrite process_line_classify.
    assert (classify raw = ClassMarker name) as -> by by apply classify_class.
    unfold apply_kind. rewrite Hsc, Hcl.
    eexists _, _. split; [reflexivity|]. simpl. split_and!.
    + apply lookup_insert_eq.
    + apply lookup_insert_eq.
    + intros c Hne. by apply lookup_insert_ne.
    + intros other Hne. by apply lookup_insert_ne.
Qed.

Lemma marker_line_binds_empty_entry_witness :
  (∃ self',
     process_line (py "#Metabolism" ++ [LF]) no_locals
       (__init__ repeated_super_class_file)
     = (Ok {| current_super_class := Some (py "Metabolism");
              current_class := None |}, self') ∧
     metabolic_pathways self' !! py "Metabolism" = Some ∅ ∧
     ∀ other, other ≠ py "Metabolism" →
       metabolic_pathways self' !! other
       = metabolic_pathways (__init__ repeated_super_class_file) !! other) ∧
  (∃ self' classes',
     process_line (py "##Global and overview maps" ++ [LF])
       {| current_super_class := Some (py "Metabolism");
          current_class := None |}
       after_super_class_line
     = (Ok {| current_super_class := Some (py "Metabolism");
              current_class := Some (py "Global and overview maps") |},
        self') ∧
     metabolic_pathways self' !! py "Metabolism" = Some classes' ∧
     classes' !! py "Global and overview maps" = Some ∅ ∧
     (∀ c, c ≠ py "Global and overview maps" →
           classes' !! c = (∅ : gmap str (gmap str str)) !! c) ∧
     ∀ other, other ≠ py "Metabolism" →
       metabolic_pathways self' !! other
       = metabolic_pathways after_super_class_line !! other).
Proof.
  split.
  - apply (proj1 (marker_line_binds_empty_entry (py "#Metabolism" ++ [LF])
                    no_locals (__init__ repeated_super_class_file))).
    reflexivity.
  - apply (proj2 (marker_line_binds_empty_entry
                    (py "##Global and overview maps" ++ [LF])
                    {| current_super_class := Some (py "Metabolism");
                       current_class := None |}
                    after_super_class_line)).
    + reflexivity.
    + reflexivity.
    + vm_compute. reflexivity.
Defined.

(** ** C7: the distinct-value lists *)

Lemma list_of_set_NoDup l : NoDup (list_of_set l).
Proof. unfold list_of_set. apply NoDup_elements. Qed.

Lemma elem_of_list_of_set l x : x ∈ list_of_set l ↔ x ∈ l.
Proof. unfold list_of_set. by rewrite elem_of_elements, elem_of_list_to_set. Qed.

(** C7. Whatever the state of the parser, a list returned by one of the
    four distinct-value accessors has no duplicate entry; its entries
    are the values of the attribute list behind the accessor, each one
    once however often it recurs there. *)
Theorem distinct_values_no_duplicates (a : accessor)
    (attribute : PathwayListFile → list str)
    (self self' : PathwayListFile) (l : list str) :
  values_attribute a = Some attribute →
  call a self = (Ok (Values l), self') →
  NoDup l ∧ ∀ x, x ∈ l ↔ x ∈ attribute self'.
Proof.
  intros Ha Hcall.
  assert (l = list_of_set (attribute self')) as ->.
  { destruct a; simplify_eq/=;
      unfold pathways_names, pathways_super_classes, pathways_classes,
        pathways_map_numbers in Hcall; unfold_M;
      destruct (build_if_no_maps self) as [[[]|e] s1]; by simplify_eq/=. }
  split; [apply list_of_set_NoDup|]. intros x. apply elem_of_list_of_set.
Qed.

Lemma distinct_values_no_duplicates_witness :
  NoDup [py "Metabolic pathways"] ∧
  ∀ x, x ∈ [py "Metabolic pathways"] ↔
       x ∈ metabolic_pathways_names
             (call PathwaysNames (__init__ recurring_values_file)).2.
Proof.
  apply (distinct_values_no_duplicates PathwaysNames metabolic_pathways_names
           (__init__ recurring_values_file)).
  - reflexivity.
  - vm_compute. reflexivity.
Defined.

(** ** Invariants of the build pass *)

Lemma consistent_init file lc :
  current_super_class lc = None → consistent lc (count_read (__init__ file)).
Proof.
  intros Hlc. split; simpl; try done.
  - intros k. rewrite lookup_empty, elem_of_nil. split; [by intros [? ?]|done].
  - intros sc. by rewrite Hlc.
Qed.

Lemma consistent_step k lc s lc' s' :
  consistent lc s → apply_kind k lc s = (Ok lc', s') → consistent lc' s'.
Proof.
  intros [Hkeys Hn Hs Hc Hidx Hcur] Hstep. unfold apply_kind in Hstep.
  destruct k as [name|name|number name|]; repeat case_match; simplify_eq.
  - split; simpl; try done.
    + intros k r Hk. apply lookup_insert_is_Some'. right. eauto.
    + intros sc [= <-]. rewrite lookup_insert_eq. eauto.
  - split; simpl; try done.
    + intros k r Hk. apply lookup_insert_is_Some'. right. eauto.
    + intros sc [= <-]. rewrite lookup_insert_eq. eauto.
  - split; simpl; rewrite ?length_app; simpl; try lia.
    + intros k. rewrite lookup_insert_is_Some', elem_of_app, list_elem_of_singleton.
      rewrite Hkeys. split; intros [?|?]; auto.
    + intros k r. destruct (decide (number = k)) as [->|Hne].
      * rewrite lookup_insert_eq. intros [= <-]. simpl.
        rewrite lookup_insert_eq. eauto.
      * rewrite lookup_insert_ne by done. intros Hk.
        apply lookup_insert_is_Some'. right. eauto.
    + intros sc Hsc. apply lookup_insert_is_Some'. right.
      apply Hcur. congruence.
  - by split.
Qed.

(** Where a build pass on a new instance stops, the attributes are
    consistent. *)
Lemma generate_consistent file r s :
  generate_metabolic_pathway_data (__init__ file) = (r, s) →
  ∃ lc, consistent lc s.
Proof.
  rewrite generate_run. simpl pathway_file.
  destruct (run _ _ _) as [r' s'] eqn:Hrun. intros Hr.
  assert (s' = s) as -> by (destruct r'; by simplify_eq).
  destruct (run_preserves consistent consistent_step _ _ _ _ _
              (consistent_init file no_locals eq_refl) Hrun) as (lc & H & _).
  eauto.
Qed.

Lemma size_zero_empty {V} (m : gmap str V) :
  bool_decide (size m = 0%nat) = true ↔ m = ∅.
Proof. rewrite bool_decide_eq_true. apply map_size_empty_iff. Qed.

Lemma consistent_no_maps lc s :
  consistent lc s → maps_and_pathways s = ∅ →
  metabolic_pathways_names s = [] ∧
  metabolic_pathways_map_numbers s = [] ∧
  metabolic_pathways_super_classes s = [] ∧
  metabolic_pathways_classes s = [].
Proof.
  intros [Hkeys Hn Hs Hc _ _] Hm.
  assert (metabolic_pathways_map_numbers s = []) as Hnum.
  { destruct (metabolic_pathways_map_numbers s) as [|k l]; [done|].
    destruct (proj2 (Hkeys k)) as [r Hr]; [by left|].
    by rewrite Hm, lookup_empty in Hr. }
  rewrite Hnum in Hn, Hs, Hc. simpl in *.
  by rewrite (nil_length_inv _ Hn), (nil_length_inv _ Hs), (nil_length_inv _ Hc).
Qed.

Lemma consistent_no_hierarchy lc s :
  consistent lc s → metabolic_pathways s = ∅ → maps_and_pathways s = ∅.
Proof.
  intros [_ _ _ _ Hidx _] Hh. apply map_empty. intros k.
  destruct (maps_and_pathways s !! k) as [r|] eqn:E; [|done].
  destruct (Hidx k r E) as [x Hx]. by rewrite Hh, lookup_empty in Hx.
Qed.

(** ** A second build pass *)

(** A superclass once in the hierarchy stays in it. *)
Lemma apply_kind_keeps_super_class k lc s r s' x :
  apply_kind k lc s = (r, s') →
  is_Some (metabolic_pathways s !! x) → is_Some (metabolic_pathways s' !! x).
Proof.
  unfold apply_kind. intros Hstep Hx.
  destruct k; repeat case_match; simplify_eq; simpl; try done;
    apply lookup_insert_is_Some'; by right.
Qed.

Lemma run_keeps_super_class ks lc s r s' x :
  run ks lc s = (r, s') →
  is_Some (metabolic_pathways s !! x) → is_Some (metabolic_pathways s' !! x).
Proof.
  intros Hrun Hx.
  pose (P := λ (_ : locals) t, is_Some (metabolic_pathways t !! x)).
  assert (∀ k lc1 s1 lc2 s2,
    P lc1 s1 → apply_kind k lc1 s1 = (Ok lc2, s2) → P lc2 s2) as Hstep.
  { intros k lc1 s1 lc2 s2 H1 E. by eapply apply_kind_keeps_super_class. }
  destruct (run_preserves P Hstep ks lc s r s') as (lc' & H & _); done.
Qed.

(** One step from two states, the second of which has a larger hierarchy
    and the same records: same outcome, same relation afterwards, and
    what the first state does not know of the hierarchy is left alone in
    the second. *)
Lemma apply_kind_lockstep k lc sa sb r sa' :
  metabolic_pathways sa ⊆ metabolic_pathways sb → same_records sa sb →
  (∀ sc, current_super_class lc = Some sc →
         is_Some (metabolic_pathways sa !! sc)) →
  apply_kind k lc sa = (r, sa') →
  ∃ sb', apply_kind k lc sb = (r, sb') ∧
    metabolic_pathways sa' ⊆ metabolic_pathways sb' ∧ same_records sa' sb' ∧
    file_reads sb' = file_reads sb ∧
    ∀ x, metabolic_pathways sa' !! x = None →
         metabolic_pathways sb' !! x = metabolic_pathways sb !! x.
Proof.
  intros Hsub (Hf & Hm & Hn & Hnum & Hs & Hc) Hcur Hstep.
  unfold apply_kind in *.
  destruct k as [name|name|number name|].
  - simplify_eq. eexists. split; [done|]. simpl. split_and!; try done.
    + by apply insert_mono.
    + intros x Hx. apply lookup_insert_None in Hx as [_ Hne].
      by rewrite lookup_insert_ne.
  - destruct (current_super_class lc) as [sc|] eqn:Hsc.
    2: { simplify_eq. by eexists. }
    destruct (Hcur sc eq_refl) as [classes Hcl]. rewrite Hcl in Hstep.
    rewrite (lookup_weaken _ _ _ _ Hcl Hsub). simplify_eq.
    eexists. split; [done|]. simpl. split_and!; try done.
    + by apply insert_mono.
    + intros x Hx. apply lookup_insert_None in Hx as [_ Hne].
      by rewrite lookup_insert_ne.
  - destruct (current_super_class lc) as [sc|] eqn:Hsc.
    2: { simplify_eq. by eexists. }
    destruct (Hcur sc eq_refl) as [classes Hcl]. rewrite Hcl in Hstep.
    rewrite (lookup_weaken _ _ _ _ Hcl Hsub).
    destruct (current_class lc) as [cc|]. 2: { simplify_eq. by eexists. }
    destruct (classes !! cc) as [maps|]. 2: { simplify_eq. by eexists. }
    simplify_eq. eexists. split; [done|]. simpl. split_and!; try congruence.
    + by apply insert_mono.
    + unfold same_records. simpl. split_and!; congruence.
    + intros x Hx. apply lookup_insert_None in Hx as [_ Hne].
      by rewrite lookup_insert_ne.
  - simplify_eq. eexists. by split_and!.
Qed.

Lemma run_lockstep ks lc sa sb r sa' :
  metabolic_pathways sa ⊆ metabolic_pathways sb → same_records sa sb →
  consistent lc sa →
  run ks lc sa = (r, sa') →
  ∃ sb', run ks lc sb = (r, sb') ∧
    metabolic_pathways sa' ⊆ metabolic_pathways sb' ∧ same_records sa' sb' ∧
    file_reads sb' = file_reads sb ∧
    ∀ x, metabolic_pathways sa' !! x = None →
         metabolic_pathways sb' !! x = metabolic_pathways sb !! x.
Proof.
  revert lc sa sb. induction ks as [|k ks IH]; intros lc sa sb Hsub Hrec Hcons Hrun.
  - injection Hrun as <- <-. exists sb. by split_and!.
  - simpl in *. unfold mbind, M_bind in *.
    destruct (apply_kind k lc sa) as [r1 sa1] eqn:Ea.
    destruct (apply_kind_lockstep k lc sa sb r1 sa1 Hsub Hrec
                (current_super_class_present _ _ Hcons) Ea)
      as (sb1 & Eb & Hsub1 & Hrec1 & Hreads1 & Hframe1).
    rewrite Eb. destruct r1 as [lc1|e].
    + destruct (IH lc1 sa1 sb1 Hsub1 Hrec1 (consistent_step _ _ _ _ _ Hcons Ea) Hrun)
        as (sb' & Hb & Hsub' & Hrec' & Hreads' & Hframe').
      exists sb'. split_and!; try done; [congruence|].
      intros x Hx. rewrite Hframe' by done. apply Hframe1.
      destruct (metabolic_pathways sa1 !! x) eqn:E; [|done].
      destruct (run_keeps_super_class ks lc1 sa1 r sa' x Hrun) as [y Hy]; [eauto|].
      congruence.
    + simplify_eq. exists sb1. by split_and!.
Qed.

(** A build pass that recorded no map does, when run again on the state
    it left, the same thing once more: it returns, and nothing but the
    read counter has changed. *)
Lemma rebuild_without_maps file s1 :
  generate_metabolic_pathway_data (__init__ file) = (Ok (), s1) →
  maps_and_pathways s1 = ∅ →
  generate_metabolic_pathway_data s1 = (Ok (), count_read s1).
Proof.
  intros Hgen Hm.
  destruct (generate_consistent _ _ _ Hgen) as [lc1 Hcons].
  destruct (consistent_no_maps _ _ Hcons Hm) as (Hn & Hnum & Hs & Hc).
  rewrite generate_run in *. simpl pathway_file in *.
  destruct (run (map classify file) no_locals (count_read (__init__ file)))
    as [[lc|e] s] eqn:Hrun; simplify_eq.
  pose proof (run_file _ _ _ _ _ Hrun) as [Hfile Hreads]. simpl in Hfile, Hreads.
  rewrite Hfile.
  assert (same_records (count_read (__init__ file)) (count_read s1)) as Hrec.
  { unfold same_records. simpl. by split_and!. }
  destruct (run_lockstep _ _ _ (count_read s1) _ _
              (map_empty_subseteq _) Hrec
              (consistent_init file no_locals eq_refl) Hrun)
    as (s2 & -> & Hsub & (Hf2 & Hm2 & Hn2 & Hnum2 & Hs2 & Hc2) & Hreads2 & Hframe).
  f_equal. destruct s1, s2; unfold count_read; simpl in *; simplify_eq. f_equal.
  apply map_eq. intros x.
  destruct (metabolic_pathways0 !! x) as [y|] eqn:E.
  - by apply (lookup_weaken _ _ _ _ E Hsub).
  - by rewrite Hframe.
Qed.

(** ** C5: calling an accessor twice *)

(** An accessor is its guarded build followed by a read of the attributes. *)
Lemma call_build_view a s :
  call a s =
  match (if storage_empty a s then generate_metabolic_pathway_data s
         else (Ok (), s)) with
  | (Ok _, s') => (view_of a s', s')
  | (Raise e, s') => (Raise e, s')
  end.
Proof.
  destruct a; unfold call, get_maps_and_pathways, pathways_and_maps,
    map_pathway_data_by_map_number, get_maps_and_pathways, pathways_names,
    pathways_super_classes, pathways_classes, pathways_map_numbers,
    all_pathways, build_if_no_maps, storage_empty, view_of; unfold_M; simpl;
    destruct (bool_decide _); simpl;
    try (destruct (generate_metabolic_pathway_data s) as [[[]|e] s']; simpl);
    try done;
    by destruct (maps_and_pathways _ !! map_number).
Qed.

Lemma view_of_count_read a s : view_of a (count_read s) = view_of a s.
Proof. by destruct a. Qed.

(** On a new instance every accessor starts with the build pass. *)
Lemma call_on_new file a :
  call a (__init__ file) =
  match generate_metabolic_pathway_data (__init__ file) with
  | (Ok _, s') => (view_of a s', s')
  | (Raise e, s') => (Raise e, s')
  end.
Proof. rewrite call_build_view. by destruct a. Qed.

(** On the state that a build pass on a new instance has left, an
    accessor reads the attributes, after a second pass that changes none
    of them if the storage it tests is empty. *)
Lemma call_after_build file s1 a :
  generate_metabolic_pathway_data (__init__ file) = (Ok (), s1) →
  call a s1
  = (view_of a s1, if storage_empty a s1 then count_read s1 else s1).
Proof.
  intros Hgen. rewrite call_build_view.
  destruct (storage_empty a s1) eqn:Hempty; [|done].
  assert (maps_and_pathways s1 = ∅) as Hm.
  { destruct (generate_consistent _ _ _ Hgen) as [lc Hcons].
    destruct a; simpl in Hempty; apply size_zero_empty in Hempty; try done.
    by eapply consistent_no_hierarchy. }
  rewrite (rebuild_without_maps file s1 Hgen Hm).
  by rewrite view_of_count_read.
Qed.

Lemma generate_reads_once file r s1 :
  generate_metabolic_pathway_data (__init__ file) = (r, s1) →
  file_reads s1 = 1%nat.
Proof.
  rewrite generate_run. simpl pathway_file.
  destruct (run _ _ _) as [r' s] eqn:Hrun. intros Hr.
  assert (s = s1) as -> by (destruct r'; by simplify_eq).
  by apply run_file in Hrun as [_ ->].
Qed.

(** C5 as stated fails on a file without map records: the build pass
    does not run at most once. The flat index is as empty after the
    first call as before it, and the second call reads the file again. *)
Lemma second_call_parses_again :
  (call GetMapsAndPathways (__init__ markers_only_file)).1 = Ok (Index ∅) ∧
  file_reads (call GetMapsAndPathways (__init__ markers_only_file)).2 = 1%nat ∧
  file_reads
    (call GetMapsAndPathways
       (call GetMapsAndPathways (__init__ markers_only_file)).2).2 = 2%nat.
Proof. split_and!; vm_compute; reflexivity. Qed.

(** C5, amended. When the first call of an accessor on a new instance
    returns, it has run the build pass once, and the second call returns
    the same result. The second call runs the build pass again exactly
    when the storage that the accessor tests (the flat index; the
    hierarchy for [pathways_and_maps]) is still empty after the first
    call; that second pass leaves every attribute as it was. Otherwise
    the second call reads no file and writes nothing. *)
Theorem second_call_same_result (file : list str) (a : accessor) (v : view)
    (s1 : PathwayListFile) :
  call a (__init__ file) = (Ok v, s1) →
  file_reads s1 = 1%nat ∧
  call a s1 = (Ok v, if storage_empty a s1 then count_read s1 else s1).
Proof.
  rewrite call_on_new.
  destruct (generate_metabolic_pathway_data (__init__ file))
    as [[[]|e] s] eqn:Hgen; [|done].
  intros Hv. assert (s = s1) as -> by congruence.
  assert (view_of a s1 = Ok v) as Hview by congruence.
  split; [by eapply generate_reads_once|].
  by rewrite (call_after_build file s1 a Hgen), Hview.
Qed.

Lemma second_call_same_result_witness :
  file_reads recurring_values_state = 1%nat ∧
  call PathwaysAndMaps recurring_values_state
  = (Ok (Hierarchy recurring_values_hierarchy),
     if storage_empty PathwaysAndMaps recurring_values_state
     then count_read recurring_values_state else recurring_values_state).
Proof.
  apply (second_call_same_result recurring_values_file PathwaysAndMaps
           (Hierarchy recurring_values_hierarchy) recurring_values_state).
  vm_compute. reflexivity.
Defined.

(** ** C10: map numbers and index keys *)

(** C10. On a new instance, the map numbers that [pathways_map_numbers]
    returns and the keys of the flat index that [get_maps_and_pathways]
    returns are the same numbers, whichever of the two is called first. *)
Theorem map_numbers_are_index_keys (file : list str) (l : list str)
    (d : gmap str map_data) (s1 s2 : PathwayListFile) :
  pathways_map_numbers (__init__ file) = (Ok l, s1) ∧
    get_maps_and_pathways s1 = (Ok d, s2) ∨
  get_maps_and_pathways (__init__ file) = (Ok d, s1) ∧
    pathways_map_numbers s1 = (Ok l, s2) →
  ∀ k, k ∈ l ↔ is_Some (d !! k).
Proof.
  intros Hcalls.
  assert (∃ s, generate_metabolic_pathway_data (__init__ file) = (Ok (), s) ∧
               l = list_of_set (metabolic_pathways_map_numbers s) ∧
               d = maps_and_pathways s) as (s & Hgen & -> & ->).
  { destruct Hcalls as [[Hl Hd]|[Hd Hl]].
    - assert (call PathwaysMapNumbers (__init__ file) = (Ok (Values l), s1))
        as H1 by (unfold call; unfold_M; by rewrite Hl).
      assert (call GetMapsAndPathways s1 = (Ok (Index d), s2))
        as H2 by (unfold call; unfold_M; by rewrite Hd).
      rewrite call_on_new in H1.
      destruct (generate_metabolic_pathway_data (__init__ file))
        as [[[]|e] s] eqn:Hgen; [|done].
      assert (s = s1) as -> by congruence.
      rewrite (call_after_build file s1 _ Hgen) in H2. simpl in H1, H2.
      exists s1. split_and!; congruence.
    - assert (call GetMapsAndPathways (__init__ file) = (Ok (Index d), s1))
        as H1 by (unfold call; unfold_M; by rewrite Hd).
      assert (call PathwaysMapNumbers s1 = (Ok (Values l), s2))
        as H2 by (unfold call; unfold_M; by rewrite Hl).
      rewrite call_on_new in H1.
      destruct (generate_metabolic_pathway_data (__init__ file))
        as [[[]|e] s] eqn:Hgen; [|done].
      assert (s = s1) as -> by congruence.
      rewrite (call_after_build file s1 _ Hgen) in H2. simpl in H1, H2.
      exists s1. split_and!; congruence. }
  destruct (generate_consistent _ _ _ Hgen) as [lc Hcons].
  intros k. rewrite elem_of_list_of_set. symmetry.
  apply (numbers_are_keys _ _ Hcons).
Qed.

Lemma map_numbers_are_index_keys_witness :
  py "01101"
    ∈ list_of_set (metabolic_pathways_map_numbers recurring_values_state) ↔
  is_Some (maps_and_pathways recurring_values_state !! py "01101").
Proof.
  apply (map_numbers_are_index_keys recurring_values_file
           (list_of_set (metabolic_pathways_map_numbers recurring_values_state))
           (maps_and_pathways recurring_values_state)
           recurring_values_state recurring_values_state).
  left. split; vm_compute; reflexivity.
Defined.

(** ** The keys of the flat index *)



(** A key of the flat index stays one. *)
Lemma run_keeps_key ks lc s r s' k :
  run ks lc s = (r, s') →
  is_Some (maps_and_pathways s !! k) → is_Some (maps_and_pathways s' !! k).
Proof.
  intros Hrun Hk.
  pose (P := λ (_ : locals) t, is_Some (maps_and_pathways t !! k)).
  assert (∀ k0 lc1 s1 lc2 s2,
    P lc1 s1 → apply_kind k0 lc1 s1 = (Ok lc2, s2) → P lc2 s2) as Hstep.
  { unfold P, apply_kind. intros k0 lc1 s1 lc2 s2 H1 E.
    destruct k0; repeat case_match; simplify_eq; simpl; try done.
    apply lookup_insert_is_Some'. by right. }
  destruct (run_preserves P Hstep ks lc s r s') as (lc' & H & _); done.
Qed.

(** The number of every map record of a pass that returns is a key of
    the flat index. *)
Lemma run_index_has ks lc s lc' s' k name :
  run ks lc s = (Ok lc', s') → MapRecord k name ∈ ks →
  is_Some (maps_and_pathways s' !! k).
Proof.
  revert lc s. induction ks as [|k0 ks IH]; intros lc s Hrun Hin.
  - by apply elem_of_nil in Hin.
  - simpl in Hrun. unfold mbind, M_bind in Hrun.
    destruct (apply_kind k0 lc s) as [[lc1|e] s1] eqn:E; [|done].
    apply elem_of_cons in Hin as [<-|Hin]; [|by eapply IH].
    eapply run_keeps_key; [exact Hrun|].
    unfold apply_kind in E. repeat case_match; simplify_eq. simpl.
    rewrite lookup_insert_eq. eauto.
Qed.

Lemma map_number_has_name line k :
  metabolic_pathway_map_number line = Ok k →
  ∃ name, metabolic_pathway_map_name line = Ok name.
Proof.
  unfold metabolic_pathway_map_number, metabolic_pathway_map_name.
  destruct (re_map_prefix line) as [[digits tail]|]; [eauto|done].
Qed.

(** ** C6: the flat index and the hierarchy *)

(** C6 as stated fails when a marker line comes back: the second
    [##Global and overview maps] line empties the class under which map
    01100 was recorded, while the flat index still lists it there. *)
Lemma repeated_class_breaks_nesting :
  (generate_metabolic_pathway_data (__init__ repeated_class_file)).1 = Ok () ∧
  maps_and_pathways
    (generate_metabolic_pathway_data (__init__ repeated_class_file)).2
    !! py "01100"
  = Some {| map_name := py "Metabolic pathways";
            superclass := py "Metabolism";
            class := py "Global and overview maps" |} ∧
  metabolic_pathways
    (generate_metabolic_pathway_data (__init__ repeated_class_file)).2
    !! py "Metabolism"
  = Some {[ py "Global and overview maps" := ∅ ]}.
Proof. split_and!; vm_compute; reflexivity. Qed.

Lemma fresh_markers_step k lc s rest lc' s' :
  fresh_markers lc s (k :: rest) → apply_kind k lc s = (Ok lc', s') →
  fresh_markers lc' s' rest.
Proof.
  intros [Hsup Hcls Hsf Hcf Hcur Hnest] Hstep. unfold apply_kind in Hstep.
  destruct k as [name|name|number name|]; simpl in *.
  - (* a superclass line *)
    simplify_eq. apply NoDup_cons in Hsup as [Hname Hsup].
    split; simpl; try done.
    + intros sc [->|Hsc]%lookup_insert_is_Some'; [done|].
      specialize (Hsf sc Hsc). by apply not_elem_of_cons in Hsf as [_ ?].
    + intros sc classes c Hl Hc.
      destruct (decide (name = sc)) as [->|Hne].
      * rewrite lookup_insert_eq in Hl. simplify_eq.
        rewrite lookup_empty in Hc. by destruct Hc.
      * rewrite lookup_insert_ne in Hl by done. eauto.
    + intros sc [= <-]. rewrite lookup_insert_eq. eauto.
    + unfold nested in *. simpl. intros number rec Hrec.
      destruct (Hnest number rec Hrec) as (classes & maps & Hc & Hm & Hn).
      exists classes, maps. split_and!; try done.
      rewrite lookup_insert_ne; [done|]. intros Heq.
      apply (Hsf name); [rewrite Heq; eauto|by left].
  - (* a class line *)
    destruct (current_super_class lc) as [sc|] eqn:Hsc; [|done].
    destruct (metabolic_pathways s !! sc) as [classes|] eqn:Hcl; [|done].
    simplify_eq. apply NoDup_cons in Hcls as [Hname Hcls].
    split; simpl; try done.
    + intros x [->|Hx]%lookup_insert_is_Some'; [apply Hsf; eauto|by apply Hsf].
    + intros x classes' c Hl Hc.
      destruct (decide (sc = x)) as [->|Hne].
      * rewrite lookup_insert_eq in Hl. simplify_eq.
        apply lookup_insert_is_Some' in Hc as [->|Hc]; [done|].
        specialize (Hcf x classes c Hcl Hc).
        by apply not_elem_of_cons in Hcf as [_ ?].
      * rewrite lookup_insert_ne in Hl by done.
        specialize (Hcf x classes' c Hl Hc).
        by apply not_elem_of_cons in Hcf as [_ ?].
    + intros x [= <-]. rewrite lookup_insert_eq. eauto.
    + unfold nested in *. simpl. intros number rec Hrec.
      destruct (Hnest number rec Hrec) as (classes' & maps & Hc & Hm & Hn).
      destruct (decide (sc = superclass rec)) as [Heq|Hne].
      * rewrite <- Heq in *. rewrite Hcl in Hc. injection Hc as <-.
        exists (<[name := ∅]> classes), maps.
        rewrite lookup_insert_eq. split_and!; try done.
        rewrite lookup_insert_ne; [done|]. intros Heq'.
        apply (Hcf sc classes name Hcl); [rewrite Heq'; eauto|by left].
      * exists classes', maps. by rewrite lookup_insert_ne.
  - (* a map record *)
    destruct (current_super_class lc) as [sc|] eqn:Hsc; [|done].
    destruct (metabolic_pathways s !! sc) as [classes|] eqn:Hcl; [|done].
    destruct (current_class lc) as [cc|] eqn:Hcc; [|done].
    destruct (classes !! cc) as [maps|] eqn:Hmaps; [|done].
    simplify_eq. split; simpl; rewrite ?Hsc; try done.
    + intros x [->|Hx]%lookup_insert_is_Some'; [apply Hsf; eauto|by apply Hsf].
    + intros x classes' c Hl Hc.
      destruct (decide (sc = x)) as [->|Hne].
      * rewrite lookup_insert_eq in Hl. simplify_eq.
        apply lookup_insert_is_Some' in Hc as [->|Hc];
          eapply Hcf; eauto.
      * rewrite lookup_insert_ne in Hl by done. eauto.
    + intros x Hx. apply lookup_insert_is_Some'. right. eauto.
    + unfold nested in *. simpl. intros number' rec Hrec.
      destruct (decide (number = number')) as [->|Hnum].
      * rewrite lookup_insert_eq in Hrec. simplify_eq. simpl.
        eexists _, _. by rewrite !lookup_insert_eq.
      * rewrite lookup_insert_ne in Hrec by done.
        destruct (Hnest number' rec Hrec) as (classes' & maps' & Hc & Hm & Hn).
        destruct (decide (sc = superclass rec)) as [Heq|Hne].
        2: { exists classes', maps'. by rewrite lookup_insert_ne. }
        rewrite <- Heq in *. rewrite Hcl in Hc. injection Hc as <-.
        rewrite lookup_insert_eq.
        destruct (decide (cc = class rec)) as [Heq'|Hne'].
        2: { eexists _, maps'. split; [done|]. by rewrite lookup_insert_ne. }
        rewrite <- Heq' in *. rewrite Hmaps in Hm. injection Hm as <-.
        eexists _, _. split; [done|]. rewrite lookup_insert_eq.
        split; [done|]. by rewrite lookup_insert_ne.
  - (* any other line *)
    simplify_eq. by split.
Qed.

Lemma run_nested ks lc s r s' :
  fresh_markers lc s ks → run ks lc s = (r, s') → nested s'.
Proof.
  revert lc s. induction ks as [|k ks IH]; intros lc s Hfresh Hrun.
  - injection Hrun as <- <-. apply (index_nested _ _ _ Hfresh).
  - simpl in Hrun. unfold mbind, M_bind in Hrun.
    destruct (apply_kind k lc s) as [[lc1|e] s1] eqn:E.
    + eapply IH; [|exact Hrun]. by eapply fresh_markers_step.
    + simplify_eq. apply apply_kind_raise in E as ->.
      apply (index_nested _ _ _ Hfresh).
Qed.

(** C6, amended. For an input file whose superclass lines name every
    superclass once and whose class lines name every class once under
    its superclass, wherever the build pass stops, every map number of
    the flat index is in the hierarchy, with the name the index records
    for it, under the superclass and the class the index records. *)
Theorem index_entries_in_hierarchy (file : list str) (r : result unit)
    (s : PathwayListFile) (number : str) (rec : map_data) :
  NoDup (declared_super_classes (map classify file)) →
  NoDup (declared_classes None (map classify file)) →
  generate_metabolic_pathway_data (__init__ file) = (r, s) →
  maps_and_pathways s !! number = Some rec →
  ∃ classes maps,
    metabolic_pathways s !! superclass rec = Some classes ∧
    classes !! class rec = Some maps ∧
    maps !! number = Some (map_name rec).
Proof.
  intros Hsup Hcls Hgen. rewrite generate_run in Hgen.
  simpl pathway_file in Hgen.
  destruct (run _ _ _) as [r' s'] eqn:Hrun.
  assert (s' = s) as -> by (destruct r'; by simplify_eq).
  revert number rec. change (nested s). eapply run_nested; [|exact Hrun].
  split; simpl; try done.
  intros sc. rewrite lookup_empty. by intros [? ?].
Qed.

Lemma index_entries_in_hierarchy_witness :
  ∃ classes maps,
    metabolic_pathways recurring_values_state !! py "Metabolism"
    = Some classes ∧
    classes !! py "Global and overview maps" = Some maps ∧
    maps !! py "01100" = Some (py "Metabolic pathways").
Proof.
  apply (index_entries_in_hierarchy recurring_values_file (Ok ())
           recurring_values_state (py "01100")
           {| map_name := py "Metabolic pathways";
              superclass := py "Metabolism";
              class := py "Global and overview maps" |}).
  - vm_compute. repeat constructor; set_solver.
  - vm_compute. repeat constructor; set_solver.
  - vm_compute. reflexivity.
  - vm_compute. reflexivity.
Defined.

(** * Further properties of the line functions *)

(** ** Map-record lines *)

(** X1. [is_metabolic_map_record] accepts exactly the lines made of a
    non-empty run of ASCII digits, one whitespace character and anything
    after it: digits alone, or digits followed by another character, are
    not map records. *)
Theorem map_record_shape (s : str) :
  is_metabolic_map_record s = true ↔
  ∃ digits w rest,
    s = digits ++ w :: rest ∧ digits ≠ [] ∧
    Forall (λ c, 48 ≤ c ≤ 57) digits ∧ is_space w = true.
Proof.
  unfold is_metabolic_map_record. split.
  - destruct (re_map_prefix s) as [[digits tail]|] eqn:E; [|done].
    intros _. destruct (re_map_prefix_inv _ _ _ E) as (w & -> & Hne & Hd & Hw).
    exists digits, w, tail. split_and!; try done.
    eapply Forall_impl; [exact Hd|]. intros c. apply is_digit_bounds.
  - intros (digits & w & rest & -> & Hne & Hd & Hw).
    rewrite re_map_prefix_shape; [done..| |done].
    eapply Forall_impl; [exact Hd|]. intros c. apply is_digit_bounds.
Qed.

(** X2. The two extractors raise [AttributeError], and nothing else,
    exactly on the lines that are not map records. On a map record both
    return: the number is a non-empty digit string, and the name has no
    line feed and does not start with U+0020. *)
Theorem extractors_raise_off_records (s : str) :
  (metabolic_pathway_map_number s = Raise AttributeError ↔
     is_metabolic_map_record s = false) ∧
  (metabolic_pathway_map_name s = Raise AttributeError ↔
     is_metabolic_map_record s = false) ∧
  (is_metabolic_map_record s = true →
   ∃ number name,
     metabolic_pathway_map_number s = Ok number ∧
     metabolic_pathway_map_name s = Ok name ∧
     number ≠ [] ∧ Forall (λ c, 48 ≤ c ≤ 57) number ∧
     head name ≠ Some SPACE ∧ LF ∉ name).
Proof.
  unfold metabolic_pathway_map_number, metabolic_pathway_map_name,
    is_metabolic_map_record.
  destruct (re_map_prefix s) as [[digits tail]|] eqn:E.
  - split_and!; [done..|]. intros _.
    destruct (re_map_prefix_inv _ _ _ E) as (w & -> & Hne & Hd & Hw).
    eexists _, _. split_and!; try done.
    + eapply Forall_impl; [exact Hd|]. intros c. apply is_digit_bounds.
    + intros Hh%drop_while_head. by vm_compute in Hh.
    + intros Hin.
      assert (LF ∈ take_while (λ c : N, negb (c =? LF)) tail) as Hin'.
      { rewrite <- (take_drop_while (λ c : N, c =? SPACE)
                      (take_while (λ c : N, negb (c =? LF)) tail)).
        apply elem_of_app. by right. }
      pose proof (take_while_all (λ c : N, negb (c =? LF)) tail) as Hall.
      rewrite Forall_forall in Hall. apply Hall in Hin'. by vm_compute in Hin'.
  - by split_and!.
Qed.

Lemma extractors_raise_off_records_witness :
  ∃ number name,
    metabolic_pathway_map_number two_tab_line = Ok number ∧
    metabolic_pathway_map_name two_tab_line = Ok name ∧
    number ≠ [] ∧ Forall (λ c, 48 ≤ c ≤ 57) number ∧
    head name ≠ Some SPACE ∧ LF ∉ name.
Proof.
  apply (proj2 (proj2 (extractors_raise_off_records two_tab_line))).
  reflexivity.
Defined.

(** X3. The three line checks are exclusive, and they stay so along the
    loop body: a map record is no marker, a superclass line is no class
    line, and a marker line without its ['#'] characters (the text the
    later [if]s of the loop body see) passes none of the three checks. *)
Theorem at_most_one_check (s : str) :
  (is_metabolic_map_record s = true →
     is_metabolic_super_class s = false ∧ is_metabolic_class s = false) ∧
  (is_metabolic_super_class s = true ∨ is_metabolic_class s = true →
     is_metabolic_super_class (remove_hashes s) = false ∧
     is_metabolic_class (remove_hashes s) = false ∧
     is_metabolic_map_record (remove_hashes s) = false).
Proof.
  split.
  - unfold is_metabolic_map_record.
    destruct (re_map_prefix s) as [p|] eqn:E; [|done].
    intros _. by eapply map_record_not_marker.
  - intros Hs.
    assert (∃ c r, remove_hashes s = c :: r ∧ is_upper c = true)
      as (c & r & -> & Hc).
    { destruct Hs; [by apply super_class_name_head|by apply class_name_head]. }
    split_and!.
    + simpl. destruct r; [done|]. by rewrite (upper_not_hash c Hc).
    + by apply upper_head_not_class.
    + unfold is_metabolic_map_record.
      by rewrite (upper_head_not_map_record c r Hc).
Qed.

Lemma at_most_one_check_witness :
  is_metabolic_super_class (remove_hashes (py "#Drug #Development")) = false ∧
  is_metabolic_class (remove_hashes (py "#Drug #Development")) = false ∧
  is_metabolic_map_record (remove_hashes (py "#Drug #Development")) = false.
Proof.
  apply (proj2 (at_most_one_check (py "#Drug #Development"))).
  left. reflexivity.
Defined.

(** ** Line terminators *)

Lemma drop_while_app_all {A} (p : A → bool) (l1 l2 : list A) :
  Forall (λ x, p x = true) l1 → drop_while p (l1 ++ l2) = drop_while p l2.
Proof.
  intros H. induction H as [|x l1 Hx _ IH]; simpl; [done|]. by rewrite Hx.
Qed.

Lemma rstrip_crlf_app (raw t : str) :
  Forall (λ c, c = CR ∨ c = LF) t → rstrip_crlf (raw ++ t) = rstrip_crlf raw.
Proof.
  intros Ht. unfold rstrip_crlf. rewrite rev_app_distr.
  rewrite drop_while_app_all; [done|].
  apply Forall_rev. eapply Forall_impl; [exact Ht|].
  intros c [-> | ->]; reflexivity.
Qed.

(** X4. The loop body does not see how a line ends: any run of CR and LF
    characters at the end of a line, in any order and number (none for a
    last line without terminator), makes no difference to what the line
    does. *)
Theorem line_terminators_ignored (raw t : str) (lc : locals)
    (self : PathwayListFile) :
  Forall (λ c, c = CR ∨ c = LF) t →
  process_line (raw ++ t) lc self = process_line raw lc self.
Proof.
  intros Ht. unfold process_line. by rewrite (rstrip_crlf_app raw t Ht).
Qed.

Lemma line_terminators_ignored_witness :
  process_line (py "#Metabolism" ++ [CR; LF; LF]) no_locals
    (__init__ markers_only_file)
  = process_line (py "#Metabolism") no_locals (__init__ markers_only_file).
Proof.
  apply (line_terminators_ignored (py "#Metabolism") [CR; LF; LF]).
  repeat (apply Forall_cons_2; [first [by left|by right]|]).
  apply Forall_nil_2.
Defined.

(** * Further properties of the build pass *)

(** ** What one line does and does not do *)

Lemma classify_other raw : classify raw = Other ↔ is_ignored raw.
Proof.
  unfold classify, is_ignored, is_metabolic_map_record,
    metabolic_pathway_map_number, metabolic_pathway_map_name.
  destruct (is_metabolic_super_class (rstrip_crlf raw)),
    (is_metabolic_class (rstrip_crlf raw)),
    (re_map_prefix (rstrip_crlf raw)) as [[? ?]|];
    split; intros H; first [done | by destruct H as (?&?&?) | by split_and!].
Qed.

Lemma classify_not_map_record raw :
  is_metabolic_map_record (rstrip_crlf raw) = false →
  kind_record (classify raw) = None.
Proof.
  unfold classify, is_metabolic_map_record, metabolic_pathway_map_number,
    metabolic_pathway_map_name.
  destruct (is_metabolic_super_class (rstrip_crlf raw)),
    (is_metabolic_class (rstrip_crlf raw)),
    (re_map_prefix (rstrip_crlf raw)) as [[? ?]|]; done.
Qed.

(** X5. What a line of the file can do to the parser. It never touches
    the file path or reads the file; if it raises, it has written
    nothing; if it is no map record, the flat index and the four lists
    are as before; if it passes none of the three checks, nothing at all
    changes; and a map record leaves the current superclass and class as
    they are. *)
Theorem line_frame (raw : str) (lc : locals) (self self' : PathwayListFile)
    (r : result locals) :
  process_line raw lc self = (r, self') →
  pathway_file self' = pathway_file self ∧
  file_reads self' = file_reads self ∧
  (∀ e, r = Raise e → self' = self) ∧
  (is_metabolic_map_record (rstrip_crlf raw) = false →
     same_records self self') ∧
  (is_ignored raw → r = Ok lc ∧ self' = self) ∧
  (is_metabolic_map_record (rstrip_crlf raw) = true →
     ∀ lc', r = Ok lc' → lc' = lc).
Proof.
  rewrite process_line_classify. intros Hstep.
  destruct (apply_kind_file _ _ _ _ _ Hstep) as [Hf Hr].
  split_and!; try done.
  - intros e ->. by eapply apply_kind_raise.
  - intros Hm%classify_not_map_record. unfold apply_kind in Hstep.
    destruct (classify raw); repeat case_match; by simplify_eq.
  - intros Hi%classify_other. rewrite Hi in Hstep. simpl in Hstep.
    by simplify_eq.
  - intros (number & name & Hk)%is_map_record_classify lc' ->.
    rewrite Hk in Hstep. unfold apply_kind in Hstep.
    repeat case_match; by simplify_eq.
Qed.

Lemma line_frame_witness :
  pathway_file after_super_class_line
    = pathway_file (__init__ repeated_super_class_file) ∧
  file_reads after_super_class_line
    = file_reads (__init__ repeated_super_class_file) ∧
  (∀ e,
     (process_line (py "#Metabolism" ++ [LF]) no_locals
        (__init__ repeated_super_class_file)).1 = Raise e →
     after_super_class_line = __init__ repeated_super_class_file) ∧
  (is_metabolic_map_record (rstrip_crlf (py "#Metabolism" ++ [LF])) = false →
     same_records (__init__ repeated_super_class_file) after_super_class_line) ∧
  (is_ignored (py "#Metabolism" ++ [LF]) →
     (process_line (py "#Metabolism" ++ [LF]) no_locals
        (__init__ repeated_super_class_file)).1 = Ok no_locals ∧
     after_super_class_line = __init__ repeated_super_class_file) ∧
  (is_metabolic_map_record (rstrip_crlf (py "#Metabolism" ++ [LF])) = true →
     ∀ lc',
       (process_line (py "#Metabolism" ++ [LF]) no_locals
          (__init__ repeated_super_class_file)).1 = Ok lc' →
       lc' = no_locals).
Proof.
  apply (line_frame (py "#Metabolism" ++ [LF]) no_locals
           (__init__ repeated_super_class_file) after_super_class_line
           (process_line (py "#Metabolism" ++ [LF]) no_locals
              (__init__ repeated_super_class_file)).1).
  vm_compute. reflexivity.
Defined.

(** ** When the build pass returns *)

Lemma run_well_formed ks ctx lc s :
  in_context ctx lc s →
  (∃ lc' s', run ks lc s = (Ok lc', s')) ↔ well_formed ctx ks = true.
Proof.
  revert ctx lc s. induction ks as [|k ks IH]; intros ctx lc s Hctx.
  - simpl. split; [done|]. intros _. by eexists _, _.
  - simpl. unfold mbind, M_bind.
    destruct k as [name|name|number name|]; simpl.
    + (* superclass line *)
      apply IH. simpl. eexists _, ∅. split_and!; [done| |done].
      simpl. apply lookup_insert_eq.
    + (* class line *)
      destruct ctx; simpl in Hctx.
      * rewrite Hctx. split; [by intros (? & ? & ?)|done].
      * destruct Hctx as (sc & classes & -> & -> & _).
        apply IH. simpl. eexists sc, _, name. split_and!; [done| |done|].
        -- simpl. apply lookup_insert_eq.
        -- rewrite lookup_insert_eq. eauto.
      * destruct Hctx as (sc & classes & c & -> & -> & _ & _).
        apply IH. simpl. eexists sc, _, name. split_and!; [done| |done|].
        -- simpl. apply lookup_insert_eq.
        -- rewrite lookup_insert_eq. eauto.
    + (* map record *)
      destruct ctx; simpl in Hctx.
      * rewrite Hctx. split; [by intros (? & ? & ?)|done].
      * destruct Hctx as (sc & classes & -> & -> & Hnone).
        destruct (current_class lc) as [c|];
          [rewrite (Hnone c eq_refl)|]; (split; [by intros (? & ? & ?)|done]).
      * destruct Hctx as (sc & classes & c & Hsc & Hcl & Hc & [maps Hmaps]).
        rewrite Hsc, Hcl, Hc, Hmaps. apply IH. simpl.
        eexists sc, _, c. split_and!; [done| |done|].
        -- simpl. apply lookup_insert_eq.
        -- rewrite lookup_insert_eq. eauto.
    + (* ignored line *)
      by apply IH.
Qed.

(** X6. The build pass on a new instance returns exactly for the files
    that respect the hierarchy: every class line has a superclass line
    before it, and every map record has, between the last superclass line
    before it and itself, a class line. On every other file it raises. *)
Theorem build_returns_iff_well_formed (file : list str) :
  (generate_metabolic_pathway_data (__init__ file)).1 = Ok () ↔
  well_formed NoSuperClass (map classify file) = true.
Proof.
  rewrite generate_run. simpl pathway_file.
  rewrite <- (run_well_formed (map classify file) NoSuperClass no_locals
                (count_read (__init__ file)) eq_refl).
  destruct (run _ _ _) as [[lc|e] s]; simpl.
  - split; [|done]. intros _. by eexists _, _.
  - split; [done|]. by intros (? & ? & ?).
Qed.

(** ** Records outside a class *)

Lemma run_app ks1 ks2 lc s :
  run (ks1 ++ ks2) lc s =
  match run ks1 lc s with
  | (Ok lc1, s1) => run ks2 lc1 s1
  | (Raise e, s1) => (Raise e, s1)
  end.
Proof.
  revert lc s. induction ks1 as [|k ks1 IH]; intros lc s; [done|].
  simpl. unfold mbind, M_bind.
  destruct (apply_kind k lc s) as [[lc1|e] s1]; [apply IH|done].
Qed.

Lemma run_super_classes_only ks lc s :
  Forall super_class_or_ignored ks →
  ∃ lc' s',
    run ks lc s = (Ok lc', s') ∧
    current_class lc' = current_class lc ∧
    same_records s s' ∧
    ((∀ k v, metabolic_pathways s !! k = Some v → v = ∅) →
     ∀ k v, metabolic_pathways s' !! k = Some v → v = ∅) ∧
    (Exists is_super_class_marker ks ∨
       (∃ sc, current_super_class lc = Some sc ∧
              is_Some (metabolic_pathways s !! sc)) →
     ∃ sc, current_super_class lc' = Some sc ∧
           is_Some (metabolic_pathways s' !! sc)).
Proof.
  intros Hks. revert lc s.
  induction Hks as [|k ks Hk _ IH]; intros lc s.
  - eexists _, _. split; [done|]. split_and!; try done.
    intros [H%Exists_nil|H]; done.
  - simpl. unfold mbind, M_bind. destruct k as [name| | |]; try done; simpl.
    + destruct (IH {| current_super_class := Some name;
                      current_class := current_class lc |}
                   (set_metabolic_pathways
                      (<[name := ∅]> (metabolic_pathways s)) s))
        as (lc' & s' & Hrun & Hcc & Hrec & Hemp & Hsc).
      exists lc', s'. split; [done|]. split_and!; try done.
      * intros Hall. apply Hemp. simpl. intros k v.
        destruct (decide (name = k)) as [->|Hne].
        -- rewrite lookup_insert_eq. by intros [= <-].
        -- rewrite lookup_insert_ne by done. apply Hall.
      * intros _. apply Hsc. right. exists name. simpl.
        rewrite lookup_insert_eq. eauto.
    + destruct (IH lc s) as (lc' & s' & Hrun & Hcc & Hrec & Hemp & Hsc).
      exists lc', s'. split; [done|]. split_and!; try done.
      intros [H%Exists_cons|H]; apply Hsc; [|by right].
      destruct H as [H|H]; [done|by left].
Qed.

(** X7. If the first map record of a file comes after a superclass line
    and before any class line, the build pass raises the unbound-variable
    error for the current class. By then it has recorded no map: the flat
    index and the four lists are empty, and every superclass entry of the
    hierarchy is empty. *)
Theorem record_before_class_raises (file pre post : list str) (raw : str) :
  file = pre ++ raw :: post →
  (∀ l, l ∈ pre →
     is_metabolic_class (rstrip_crlf l) = false ∧
     is_metabolic_map_record (rstrip_crlf l) = false) →
  (∃ l, l ∈ pre ∧ is_metabolic_super_class (rstrip_crlf l) = true) →
  is_metabolic_map_record (rstrip_crlf raw) = true →
  ∃ s,
    generate_metabolic_pathway_data (__init__ file)
    = (Raise (UnboundLocalError "current_class"), s) ∧
    maps_and_pathways s = ∅ ∧
    metabolic_pathways_names s = [] ∧
    metabolic_pathways_map_numbers s = [] ∧
    metabolic_pathways_super_classes s = [] ∧
    metabolic_pathways_classes s = [] ∧
    ∀ k v, metabolic_pathways s !! k = Some v → v = ∅.
Proof.
  intros -> Hpre (l0 & Hl0 & Hs0) Hraw.
  rewrite generate_run. simpl pathway_file. rewrite map_app. simpl map.
  assert (Forall super_class_or_ignored (map classify pre)) as Hks.
  { apply Forall_forall. intros k (l & -> & Hl)%list_elem_of_fmap.
    destruct (Hpre l Hl) as [Hc Hm].
    destruct (classify l) as [| name | number name |] eqn:E; simpl; try done.
    - apply classify_class in E as [E _]. congruence.
    - apply classify_map_record in E as [E _].
      unfold is_metabolic_map_record, metabolic_pathway_map_number in *.
      by destruct (re_map_prefix (rstrip_crlf l)). }
  destruct (run_super_classes_only (map classify pre) no_locals
              (count_read (__init__ (pre ++ raw :: post))) Hks)
    as (lc' & s' & Hrun & Hcc & Hrec & Hemp & Hsc).
  destruct Hsc as (sc & Hsc & [classes Hcl]).
  { left. apply Exists_exists. exists (classify l0). split.
    - apply list_elem_of_fmap. eauto.
    - assert (classify l0 = SuperclassMarker (remove_hashes (rstrip_crlf l0)))
        as -> by by apply classify_super_class.
      done. }
  destruct (is_map_record_classify raw Hraw) as (number & name & Hk).
  rewrite run_app, Hrun, Hk. simpl. unfold mbind, M_bind. simpl.
  rewrite Hsc, Hcl, Hcc. simpl.
  exists s'. split; [done|].
  destruct Hrec as (_ & <- & <- & <- & <- & <-). split_and!; try done.
  apply Hemp. simpl. intros k v. by rewrite lookup_empty.
Qed.

Lemma record_before_class_raises_witness :
  ∃ s,
    generate_metabolic_pathway_data (__init__ classless_file)
    = (Raise (UnboundLocalError "current_class"), s) ∧
    maps_and_pathways s = ∅ ∧
    metabolic_pathways_names s = [] ∧
    metabolic_pathways_map_numbers s = [] ∧
    metabolic_pathways_super_classes s = [] ∧
    metabolic_pathways_classes s = [] ∧
    ∀ k v, metabolic_pathways s !! k = Some v → v = ∅.
Proof.
  apply (record_before_class_raises classless_file
           (file_of ["#Metabolism"]%string)
           (file_of ["##Global and overview maps"]%string)
           (py "01100   Metabolic pathways" ++ [LF])).
  - reflexivity.
  - intros l ->%list_elem_of_singleton. split; reflexivity.
  - exists (py "#Metabolism" ++ [LF]). split; [by left|reflexivity].
  - reflexivity.
Defined.

Lemma run_ignored ks rest lc s :
  Forall (λ k, k = Other) ks → run (ks ++ rest) lc s = run rest lc s.
Proof.
  intros H. induction H as [|k ks -> _ IH]; [done|]. simpl.
  unfold mbind, M_bind. simpl. apply IH.
Qed.

(** X8. The current class is not reset by a superclass line, but the
    entry of the new superclass starts empty: a map record that follows a
    superclass line with no class line in between (ignored lines apart),
    when a class of an earlier superclass is still current, raises
    [KeyError] for that class name. All that the three lines have written
    by then is the empty entry of the new superclass. *)
Theorem stale_class_raises (sup rec : str) (mid : list str) (cc : str)
    (lc : locals) (self : PathwayListFile) :
  is_metabolic_super_class (rstrip_crlf sup) = true →
  Forall is_ignored mid →
  is_metabolic_map_record (rstrip_crlf rec) = true →
  current_class lc = Some cc →
  for_each_line (sup :: mid ++ [rec]) lc self
  = (Raise (KeyError cc),
     set_metabolic_pathways
       (<[remove_hashes (rstrip_crlf sup) := ∅]> (metabolic_pathways self))
       self).
Proof.
  intros Hsup Hmid Hrec Hcc. rewrite for_each_line_run. simpl map.
  assert (classify sup = SuperclassMarker (remove_hashes (rstrip_crlf sup)))
    as -> by by apply classify_super_class.
  simpl. unfold mbind, M_bind. simpl. rewrite map_app, run_ignored.
  2: { apply Forall_fmap. eapply Forall_impl; [exact Hmid|].
       intros l. apply classify_other. }
  destruct (is_map_record_classify rec Hrec) as (number & name & Hk).
  simpl map. rewrite Hk. simpl. unfold mbind, M_bind. simpl.
  by rewrite lookup_insert_eq, Hcc, lookup_empty.
Qed.

Lemma stale_class_raises_witness :
  for_each_line
    (file_of ["#Genetic Information Processing"; ""; "03020   RNA polymerase"]%string)
    {| current_super_class := Some (py "Metabolism");
       current_class := Some (py "Global and overview maps") |}
    recurring_values_state
  = (Raise (KeyError (py "Global and overview maps")),
     set_metabolic_pathways
       (<[remove_hashes
            (rstrip_crlf (py "#Genetic Information Processing" ++ [LF])) := ∅]>
          (metabolic_pathways recurring_values_state))
       recurring_values_state).
Proof.
  apply (stale_class_raises (py "#Genetic Information Processing" ++ [LF])
           (py "03020   RNA polymerase" ++ [LF]) (file_of [""]%string)).
  - reflexivity.
  - apply Forall_cons_2; [|apply Forall_nil_2]. by split_and!.
  - reflexivity.
  - reflexivity.
Defined.

(** ** The lists and the index against the file *)

Lemma kind_record_classify raw : kind_record (classify raw) = map_record_of raw.
Proof.
  unfold map_record_of.
  destruct (classify raw) as [name|name|number name|] eqn:E; simpl.
  - apply classify_super_class in E as [E _].
    destruct (metabolic_pathway_map_number (rstrip_crlf raw)) as [n|] eqn:En;
      [|done].
    unfold metabolic_pathway_map_number in En.
    destruct (re_map_prefix (rstrip_crlf raw)) as [p|] eqn:Ep; [|done].
    destruct (map_record_not_marker _ _ Ep). congruence.
  - apply classify_class in E as [E _].
    destruct (metabolic_pathway_map_number (rstrip_crlf raw)) as [n|] eqn:En;
      [|done].
    unfold metabolic_pathway_map_number in En.
    destruct (re_map_prefix (rstrip_crlf raw)) as [p|] eqn:Ep; [|done].
    destruct (map_record_not_marker _ _ Ep). congruence.
  - apply classify_map_record in E as [-> ->]. done.
  - apply classify_other in E as (_ & _ & E).
    unfold is_metabolic_map_record, metabolic_pathway_map_number in *.
    by destruct (re_map_prefix (rstrip_crlf raw)).
Qed.

Lemma omap_kind_record file :
  omap kind_record (map classify file) = omap map_record_of file.
Proof.
  induction file as [|raw file IH]; [done|].
  change (omap kind_record (map classify (raw :: file)))
    with (match kind_record (classify raw) with
          | Some y => y :: omap kind_record (map classify file)
          | None => omap kind_record (map classify file)
          end).
  by rewrite kind_record_classify, IH.
Qed.

Lemma run_lists ks lc s lc' s' :
  run ks lc s = (Ok lc', s') →
  metabolic_pathways_map_numbers s'
  = metabolic_pathways_map_numbers s ++ (omap kind_record ks).*1 ∧
  metabolic_pathways_names s'
  = metabolic_pathways_names s ++ (omap kind_record ks).*2.
Proof.
  revert lc s. induction ks as [|k ks IH]; intros lc s Hrun.
  - injection Hrun as <- <-. simpl. by rewrite !app_nil_r.
  - simpl in Hrun. unfold mbind, M_bind in Hrun.
    destruct (apply_kind k lc s) as [[lc1|e] s1] eqn:E; [|done].
    destruct (IH _ _ Hrun) as [-> ->]. unfold apply_kind in E.
    destruct k; repeat case_match; simplify_eq; simpl; try done.
    by rewrite <- !app_assoc.
Qed.

(** X9. When the build pass on a new instance returns, the list of map
    numbers and the list of map names hold one entry per map-record line
    of the file, in the order of the file, and a number or name that
    recurs in the file recurs in the list; the lists of superclasses and
    of classes have one entry per map record as well. *)
Theorem lists_follow_file (file : list str) (s : PathwayListFile) :
  generate_metabolic_pathway_data (__init__ file) = (Ok (), s) →
  metabolic_pathways_map_numbers s = (omap map_record_of file).*1 ∧
  metabolic_pathways_names s = (omap map_record_of file).*2 ∧
  length (metabolic_pathways_super_classes s)
    = length (omap map_record_of file) ∧
  length (metabolic_pathways_classes s) = length (omap map_record_of file).
Proof.
  intros Hgen. destruct (generate_consistent _ _ _ Hgen) as [lc Hcons].
  rewrite generate_run in Hgen. simpl pathway_file in Hgen.
  destruct (run _ _ _) as [[lc'|e] s'] eqn:Hrun; simplify_eq.
  destruct (run_lists _ _ _ _ _ Hrun) as [Hnum Hnames].
  rewrite omap_kind_record in Hnum, Hnames. simpl in Hnum, Hnames.
  rewrite (super_classes_length _ _ Hcons), (classes_length _ _ Hcons).
  rewrite Hnum, Hnames. by rewrite length_fmap.
Qed.

Lemma lists_follow_file_witness :
  metabolic_pathways_map_numbers recurring_values_state
    = (omap map_record_of recurring_values_file).*1 ∧
  metabolic_pathways_names recurring_values_state
    = (omap map_record_of recurring_values_file).*2 ∧
  length (metabolic_pathways_super_classes recurring_values_state)
    = length (omap map_record_of recurring_values_file) ∧
  length (metabolic_pathways_classes recurring_values_state)
    = length (omap map_record_of recurring_values_file).
Proof.
  apply (lists_follow_file recurring_values_file recurring_values_state).
  vm_compute. reflexivity.
Defined.

(** After a run that returns, the current superclass and the current
    class are the last ones that the lines of the run have assigned. *)
Lemma run_locals ks lc s lc' s' :
  run ks lc s = (Ok lc', s') →
  current_super_class lc'
  = match last (declared_super_classes ks) with
    | Some n => Some n
    | None => current_super_class lc
    end ∧
  current_class lc'
  = match last (declared_class_names ks) with
    | Some n => Some n
    | None => current_class lc
    end.
Proof.
  revert lc s. induction ks as [|k ks IH]; intros lc s Hrun.
  - by injection Hrun as <- <-.
  - simpl in Hrun. unfold mbind, M_bind in Hrun.
    destruct (apply_kind k lc s) as [[lc1|e] s1] eqn:E; [|done].
    destruct (IH _ _ Hrun) as [Hs Hc]. rewrite Hs, Hc. clear IH Hs Hc Hrun.
    unfold apply_kind in E. unfold declared_class_names.
    destruct k as [name|name|number name|]; simpl.
    + simplify_eq. simpl. rewrite last_cons.
      by destruct (last (declared_super_classes ks)).
    + destruct (current_super_class lc) as [sc|] eqn:Hsc; [|done].
      destruct (metabolic_pathways s !! sc); [|done]. simplify_eq. simpl.
      rewrite last_cons.
      split; [done|]. unfold omap. simpl. by destruct (last _).
    + destruct (current_super_class lc) as [sc|] eqn:Hsc; [|done].
      destruct (metabolic_pathways s !! sc) as [classes|]; [|done].
      destruct (current_class lc) as [cc|] eqn:Hcc; [|done].
      destruct (classes !! cc); [|done]. simplify_eq. by rewrite Hsc, Hcc.
    + by simplify_eq.
Qed.

(** Lines that are no map record of a number leave the entry of that
    number in the flat index alone. *)
Lemma run_index_unchanged ks lc s r s' k :
  run ks lc s = (r, s') →
  (∀ name, MapRecord k name ∉ ks) →
  maps_and_pathways s' !! k = maps_and_pathways s !! k.
Proof.
  revert lc s. induction ks as [|k0 ks IH]; intros lc s Hrun Hno.
  - by injection Hrun as <- <-.
  - simpl in Hrun. unfold mbind, M_bind in Hrun.
    destruct (apply_kind k0 lc s) as [[lc1|e] s1] eqn:E.
    + rewrite (IH _ _ Hrun).
      2: { intros name Hin. apply (Hno name). by right. }
      unfold apply_kind in E.
      destruct k0 as [n|n|number n|]; repeat case_match; simplify_eq;
        simpl; try done.
      apply lookup_insert_ne. intros <-. apply (Hno n). by left.
    + simplify_eq. by apply apply_kind_raise in E as ->.
Qed.

(** X10. When a map number occurs on several map-record lines, the last
    one wins: if the build pass on a new instance returns, the flat index
    holds, for the number of a map-record line that no later line
    repeats, the name of that line, with the superclass and the class of
    the last superclass line and the last class line before it. *)
Theorem last_record_wins (file pre post : list str) (raw : str)
    (s : PathwayListFile) (number name : str) :
  file = pre ++ raw :: post →
  generate_metabolic_pathway_data (__init__ file) = (Ok (), s) →
  metabolic_pathway_map_number (rstrip_crlf raw) = Ok number →
  metabolic_pathway_map_name (rstrip_crlf raw) = Ok name →
  (∀ l, l ∈ post → metabolic_pathway_map_number (rstrip_crlf l) ≠ Ok number) →
  ∃ sc cc,
    last (declared_super_classes (map classify pre)) = Some sc ∧
    last (declared_class_names (map classify pre)) = Some cc ∧
    maps_and_pathways s !! number
    = Some {| map_name := name; superclass := sc; class := cc |}.
Proof.
  intros -> Hgen Hnum Hname Hpost.
  rewrite generate_run in Hgen. simpl pathway_file in Hgen.
  rewrite map_app, run_app in Hgen. simpl map in Hgen.
  assert (classify raw = MapRecord number name) as Hk
    by by apply classify_map_record.
  rewrite Hk in Hgen.
  destruct (run (map classify pre) no_locals _) as [[lc1|e] s1] eqn:Hpre;
    [|done].
  simpl in Hgen. unfold mbind, M_bind in Hgen.
  destruct (apply_kind (MapRecord number name) lc1 s1) as [[lc2|e] s2] eqn:E;
    [|done].
  destruct (run (map classify post) lc2 s2) as [[lc3|e] s3] eqn:Hrest;
    simplify_eq.
  destruct (run_locals _ _ _ _ _ Hpre) as [Hsc Hcc]. simpl in Hsc, Hcc.
  unfold apply_kind in E.
  destruct (current_super_class lc1) as [sc|]; [|done].
  destruct (metabolic_pathways s1 !! sc) as [classes|]; [|done].
  destruct (current_class lc1) as [cc|]; [|done].
  destruct (classes !! cc) as [maps|]; [|done].
  simplify_eq. exists sc, cc. split_and!.
  - by destruct (last (declared_super_classes (map classify pre))).
  - by destruct (last (declared_class_names (map classify pre))).
  - rewrite (run_index_unchanged _ _ _ _ _ number Hrest).
    + simpl. apply lookup_insert_eq.
    + intros name' (l & Hc & Hl)%list_elem_of_fmap.
      symmetry in Hc. apply classify_map_record in Hc as [Hc _].
      by apply (Hpost l Hl).
Qed.

Lemma last_record_wins_witness :
  ∃ sc cc,
    last (declared_super_classes
            (map classify (file_of ["#Metabolism"; "##Global and overview maps";
                                    "01100   Metabolic pathways"]%string)))
    = Some sc ∧
    last (declared_class_names
            (map classify (file_of ["#Metabolism"; "##Global and overview maps";
                                    "01100   Metabolic pathways"]%string)))
    = Some cc ∧
    maps_and_pathways recurring_values_state !! py "01101"
    = Some {| map_name := py "Metabolic pathways";
              superclass := sc; class := cc |}.
Proof.
  apply (last_record_wins recurring_values_file
           (file_of ["#Metabolism"; "##Global and overview maps";
                     "01100   Metabolic pathways"]%string)
           (file_of ["01100   Metabolic pathways"]%string)
           (py "01101   Metabolic pathways" ++ [LF])).
  - reflexivity.
  - vm_compute. reflexivity.
  - reflexivity.
  - reflexivity.
  - intros l ->%list_elem_of_singleton. discriminate.
Defined.

(** ** The keys of the hierarchy *)

Lemma elem_of_declared_super_classes ks name :
  name ∈ declared_super_classes ks ↔ SuperclassMarker name ∈ ks.
Proof.
  induction ks as [|k ks IH]; simpl.
  - by rewrite !elem_of_nil.
  - destruct k; rewrite ?elem_of_cons, IH;
      (split; [intros [->|?]; auto|intros [[= ->]|?]; auto])
      || (split; [auto|intros [?|?]; [done|auto]]).
Qed.

Lemma run_super_class_keys ks lc s lc' s' k :
  run ks lc s = (Ok lc', s') →
  is_Some (metabolic_pathways s' !! k) ↔
  is_Some (metabolic_pathways s !! k) ∨ k ∈ declared_super_classes ks.
Proof.
  revert lc s. induction ks as [|k0 ks IH]; intros lc s Hrun.
  - injection Hrun as <- <-. simpl. rewrite elem_of_nil. tauto.
  - simpl in Hrun. unfold mbind, M_bind in Hrun.
    destruct (apply_kind k0 lc s) as [[lc1|e] s1] eqn:E; [|done].
    rewrite (IH _ _ Hrun). clear IH Hrun. unfold apply_kind in E.
    destruct k0 as [name|name|number name|]; simpl.
    + simplify_eq. simpl. rewrite lookup_insert_is_Some', elem_of_cons.
      split; [intros [[->|?]|?]|intros [?|[->|?]]]; auto.
    + destruct (current_super_class lc) as [sc|]; [|done].
      destruct (metabolic_pathways s !! sc) as [classes|] eqn:Hcl; [|done].
      simplify_eq. simpl. rewrite lookup_insert_is_Some'.
      split; [intros [[<-|?]|?]|intros [?|?]]; eauto.
    + destruct (current_super_class lc) as [sc|]; [|done].
      destruct (metabolic_pathways s !! sc) as [classes|] eqn:Hcl; [|done].
      destruct (current_class lc) as [cc|]; [|done].
      destruct (classes !! cc); [|done].
      simplify_eq. simpl. rewrite lookup_insert_is_Some'.
      split; [intros [[<-|?]|?]|intros [?|?]]; eauto.
    + by simplify_eq.
Qed.

(** X11. When the build pass on a new instance returns, the keys of the
    hierarchy are exactly the names of the superclass lines of the file,
    each without its ['#'] characters; a class line or a map record
    never adds a superclass. *)
Theorem hierarchy_keys_are_super_classes (file : list str)
    (s : PathwayListFile) (k : str) :
  generate_metabolic_pathway_data (__init__ file) = (Ok (), s) →
  is_Some (metabolic_pathways s !! k) ↔
  ∃ raw, raw ∈ file ∧ is_metabolic_super_class (rstrip_crlf raw) = true ∧
         k = remove_hashes (rstrip_crlf raw).
Proof.
  intros Hgen. rewrite generate_run in Hgen. simpl pathway_file in Hgen.
  destruct (run _ _ _) as [[lc'|e] s'] eqn:Hrun; simplify_eq.
  rewrite (run_super_class_keys _ _ _ _ _ k Hrun). simpl.
  rewrite elem_of_declared_super_classes, list_elem_of_fmap. split.
  - intros [[? H]|(raw & Hc & Hin)]; [by rewrite lookup_empty in H|].
    symmetry in Hc. apply classify_super_class in Hc as [? ?]. eauto.
  - intros (raw & Hin & Hs & ->). right. exists raw. split; [|done].
    symmetry. by apply classify_super_class.
Qed.

Lemma hierarchy_keys_are_super_classes_witness :
  is_Some (metabolic_pathways recurring_values_state !! py "Metabolism") ↔
  ∃ raw, raw ∈ recurring_values_file ∧
         is_metabolic_super_class (rstrip_crlf raw) = true ∧
         py "Metabolism" = remove_hashes (rstrip_crlf raw).
Proof.
  apply (hierarchy_keys_are_super_classes recurring_values_file
           recurring_values_state (py "Metabolism")).
  vm_compute. reflexivity.
Defined.

(** ** The index, the lists and the hierarchy against each other *)

Lemma index_listed_step k lc s lc' s' :
  index_listed s → apply_kind k lc s = (Ok lc', s') → index_listed s'.
Proof.
  intros [Hidx Hsup] Hstep. unfold apply_kind in Hstep.
  destruct k as [name|name|number name|].
  - simplify_eq. split; simpl; [done|].
    intros sc Hsc. apply lookup_insert_is_Some'. right. by apply Hsup.
  - destruct (current_super_class lc) as [sc|]; [|done].
    destruct (metabolic_pathways s !! sc) as [classes|]; [|done].
    simplify_eq. split; simpl; [done|].
    intros x Hx. apply lookup_insert_is_Some'. right. by apply Hsup.
  - destruct (current_super_class lc) as [sc|]; [|done].
    destruct (metabolic_pathways s !! sc) as [classes|]; [|done].
    destruct (current_class lc) as [cc|]; [|done].
    destruct (classes !! cc) as [maps|]; [|done].
    simplify_eq. split; simpl.
    + intros k rec. rewrite !elem_of_app, !list_elem_of_singleton.
      destruct (decide (number = k)) as [->|Hne].
      * rewrite lookup_insert_eq. intros [= <-]. simpl. auto.
      * rewrite lookup_insert_ne by done. intros Hk.
        destruct (Hidx k rec Hk) as (? & ? & ?). auto.
    + intros x [Hx| ->%list_elem_of_singleton]%elem_of_app;
        apply lookup_insert_is_Some'; [right; by apply Hsup|by left].
  - by simplify_eq.
Qed.

(** X12. Wherever the build pass on a new instance stops, every entry of
    the flat index shows in the lists behind the distinct-value
    accessors: its name is among the names, its superclass among the
    superclasses, its class among the classes; and every listed
    superclass is a key of the hierarchy. *)
Theorem index_entries_are_listed (file : list str) (r : result unit)
    (s : PathwayListFile) :
  generate_metabolic_pathway_data (__init__ file) = (r, s) →
  (∀ k rec, maps_and_pathways s !! k = Some rec →
     map_name rec ∈ metabolic_pathways_names s ∧
     superclass rec ∈ metabolic_pathways_super_classes s ∧
     class rec ∈ metabolic_pathways_classes s) ∧
  (∀ sc, sc ∈ metabolic_pathways_super_classes s →
     is_Some (metabolic_pathways s !! sc)).
Proof.
  rewrite generate_run. simpl pathway_file.
  destruct (run _ _ _) as [r' s'] eqn:Hrun. intros Hr.
  assert (s' = s) as -> by (destruct r'; by simplify_eq).
  pose (P := λ (_ : locals) t, index_listed t).
  assert (∀ k lc1 s1 lc2 s2,
    P lc1 s1 → apply_kind k lc1 s1 = (Ok lc2, s2) → P lc2 s2) as Hstep.
  { intros k lc1 s1 lc2 s2. apply index_listed_step. }
  assert (P no_locals (count_read (__init__ file))) as Hinit.
  { split; simpl; [intros k rec; by rewrite lookup_empty|].
    intros sc. by rewrite elem_of_nil. }
  destruct (run_preserves P Hstep _ _ _ _ _ Hinit Hrun) as (lc & H & _).
  exact H.
Qed.

Lemma index_entries_are_listed_witness :
  (∀ k rec, maps_and_pathways recurring_values_state !! k = Some rec →
     map_name rec ∈ metabolic_pathways_names recurring_values_state ∧
     superclass rec
       ∈ metabolic_pathways_super_classes recurring_values_state ∧
     class rec ∈ metabolic_pathways_classes recurring_values_state) ∧
  (∀ sc, sc ∈ metabolic_pathways_super_classes recurring_values_state →
     is_Some (metabolic_pathways recurring_values_state !! sc)).
Proof.
  apply (index_entries_are_listed recurring_values_file (Ok ())
           recurring_values_state).
  vm_compute. reflexivity.
Defined.

Lemma hierarchy_indexed_step k lc s lc' s' :
  hierarchy_indexed s → apply_kind k lc s = (Ok lc', s') →
  hierarchy_indexed s'.
Proof.
  intros Hinv Hstep. unfold apply_kind in Hstep. unfold hierarchy_indexed in *.
  destruct k as [name0|name0|number name0|].
  - simplify_eq. simpl. intros sc classes c maps n name Hsc Hc Hn.
    destruct (decide (name0 = sc)) as [->|Hne].
    + rewrite lookup_insert_eq in Hsc. injection Hsc as <-.
      by rewrite lookup_empty in Hc.
    + rewrite lookup_insert_ne in Hsc by done. eauto.
  - destruct (current_super_class lc) as [sc0|]; [|done].
    destruct (metabolic_pathways s !! sc0) as [classes0|] eqn:Hcl; [|done].
    simplify_eq. simpl. intros sc classes c maps n name Hsc Hc Hn.
    destruct (decide (sc0 = sc)) as [->|Hne].
    + rewrite lookup_insert_eq in Hsc. injection Hsc as <-.
      destruct (decide (name0 = c)) as [->|Hne].
      * rewrite lookup_insert_eq in Hc. injection Hc as <-.
        by rewrite lookup_empty in Hn.
      * rewrite lookup_insert_ne in Hc by done. eauto.
    + rewrite lookup_insert_ne in Hsc by done. eauto.
  - destruct (current_super_class lc) as [sc0|]; [|done].
    destruct (metabolic_pathways s !! sc0) as [classes0|] eqn:Hcl; [|done].
    destruct (current_class lc) as [cc0|]; [|done].
    destruct (classes0 !! cc0) as [maps0|] eqn:Hmaps; [|done].
    simplify_eq. simpl. intros sc classes c maps n name Hsc Hc Hn.
    rewrite lookup_insert_is_Some', !elem_of_app, !list_elem_of_singleton.
    destruct (decide (sc0 = sc)) as [->|Hne].
    + rewrite lookup_insert_eq in Hsc. injection Hsc as <-.
      destruct (decide (cc0 = c)) as [->|Hne].
      * rewrite lookup_insert_eq in Hc. injection Hc as <-.
        destruct (decide (number = n)) as [->|Hne].
        -- rewrite lookup_insert_eq in Hn. injection Hn as <-. auto.
        -- rewrite lookup_insert_ne in Hn by done.
           destruct (Hinv _ _ _ _ _ _ Hcl Hmaps Hn) as (? & ? & ?). auto.
      * rewrite lookup_insert_ne in Hc by done.
        destruct (Hinv _ _ _ _ _ _ Hcl Hc Hn) as (? & ? & ?). auto.
    + rewrite lookup_insert_ne in Hsc by done.
      destruct (Hinv _ _ _ _ _ _ Hsc Hc Hn) as (? & ? & ?). auto.
  - by simplify_eq.
Qed.

(** X13. Wherever the build pass on a new instance stops, every map that
    the hierarchy holds, under any superclass and class, has its number
    among the keys of the flat index and in the list of map numbers, and
    its name in the list of map names: the hierarchy never knows a map
    that the other views have not seen. *)
Theorem hierarchy_maps_are_indexed (file : list str) (r : result unit)
    (s : PathwayListFile) (sc c n name : str)
    (classes : gmap str (gmap str str)) (maps : gmap str str) :
  generate_metabolic_pathway_data (__init__ file) = (r, s) →
  metabolic_pathways s !! sc = Some classes →
  classes !! c = Some maps →
  maps !! n = Some name →
  is_Some (maps_and_pathways s !! n) ∧
  n ∈ metabolic_pathways_map_numbers s ∧
  name ∈ metabolic_pathways_names s.
Proof.
  rewrite generate_run. simpl pathway_file.
  destruct (run _ _ _) as [r' s'] eqn:Hrun. intros Hr.
  assert (s' = s) as -> by (destruct r'; by simplify_eq).
  pose (P := λ (_ : locals) t, hierarchy_indexed t).
  assert (∀ k lc1 s1 lc2 s2,
    P lc1 s1 → apply_kind k lc1 s1 = (Ok lc2, s2) → P lc2 s2) as Hstep.
  { intros k lc1 s1 lc2 s2. apply hierarchy_indexed_step. }
  assert (P no_locals (count_read (__init__ file))) as Hinit.
  { intros sc' classes' c' maps' n' name'. simpl. by rewrite lookup_empty. }
  destruct (run_preserves P Hstep _ _ _ _ _ Hinit Hrun) as (lc & H & _).
  apply H.
Qed.

Lemma hierarchy_maps_are_indexed_witness :
  is_Some (maps_and_pathways recurring_values_state !! py "01101") ∧
  py "01101" ∈ metabolic_pathways_map_numbers recurring_values_state ∧
  py "Metabolic pathways" ∈ metabolic_pathways_names recurring_values_state.
Proof.
  apply (hierarchy_maps_are_indexed recurring_values_file (Ok ())
           recurring_values_state (py "Metabolism")
           (py "Global and overview maps") (py "01101")
           (py "Metabolic pathways")
           {[ py "Global and overview maps" :=
                {[ py "01100" := py "Metabolic pathways";
                   py "01101" := py "Metabolic pathways" ]} ]}
           {[ py "01100" := py "Metabolic pathways";
              py "01101" := py "Metabolic pathways" ]}).
  - vm_compute. reflexivity.
  - vm_compute. reflexivity.
  - vm_compute. reflexivity.
  - vm_compute. reflexivity.
Defined.

(** ** Files without content *)

(** X14. On a file in which no line passes any of the three checks (an
    empty file among them), an accessor whose storage is empty reads the
    whole file, changes no attribute and returns what the attributes
    hold: nothing is ever stored, so every call of every accessor on
    such a file reads it again. *)
Theorem ignored_file_read_again (a : accessor) (s : PathwayListFile) :
  Forall is_ignored (pathway_file s) →
  storage_empty a s = true →
  call a s = (view_of a s, count_read s) ∧
  storage_empty a (count_read s) = true.
Proof.
  intros Hfile Hempty. split; [|by destruct a].
  rewrite call_build_view, Hempty, generate_run.
  rewrite <- (app_nil_r (map classify (pathway_file s))), run_ignored.
  - simpl. by rewrite view_of_count_read.
  - apply Forall_fmap. eapply Forall_impl; [exact Hfile|].
    intros l. apply classify_other.
Qed.

Lemma ignored_file_read_again_witness :
  call PathwaysNames (__init__ ignored_lines_file)
  = (view_of PathwaysNames (__init__ ignored_lines_file),
     count_read (__init__ ignored_lines_file)) ∧
  storage_empty PathwaysNames (count_read (__init__ ignored_lines_file)) = true.
Proof.
  apply (ignored_file_read_again PathwaysNames (__init__ ignored_lines_file)).
  - repeat (apply Forall_cons_2; [by split_and!|]). apply Forall_nil_2.
  - reflexivity.
Defined.

(** ** The shape of the keys *)

Lemma remove_hashes_no_hash (s : str) : HASH ∉ remove_hashes s.
Proof.
  unfold remove_hashes. intros [H _]%list_elem_of_filter. done.
Qed.

Lemma classify_valid raw : valid_kind (classify raw).
Proof.
  destruct (classify raw) as [name|name|number name|] eqn:E; simpl; [| | |done].
  - apply classify_super_class in E as [E ->]. split.
    + apply remove_hashes_no_hash.
    + destruct (super_class_name_head _ E) as (c & r & -> & Hc%is_upper_bounds).
      eauto.
  - apply classify_class in E as [E ->]. split.
    + apply remove_hashes_no_hash.
    + destruct (class_name_head _ E) as (c & r & -> & Hc%is_upper_bounds).
      eauto.
  - apply classify_map_record in E as [E _].
    unfold metabolic_pathway_map_number in E.
    destruct (re_map_prefix (rstrip_crlf raw)) as [[digits tail]|] eqn:Ep;
      [|done].
    injection E as ->.
    destruct (re_map_prefix_inv _ _ _ Ep) as (w & _ & Hne & Hd & _).
    split; [done|]. eapply Forall_impl; [exact Hd|].
    intros c. apply is_digit_bounds.
Qed.

Lemma keys_shaped_step k lc s lc' s' :
  valid_kind k → keys_shaped s → apply_kind k lc s = (Ok lc', s') →
  keys_shaped s'.
Proof.
  intros Hk [Hidx Hh] Hstep. unfold apply_kind in Hstep.
  destruct k as [name0|name0|number name0|]; simpl in Hk.
  - simplify_eq. split; simpl; [done|]. intros sc classes.
    destruct (decide (name0 = sc)) as [->|Hne].
    + rewrite lookup_insert_eq. intros [= <-]. split; [done|].
      intros c maps. by rewrite lookup_empty.
    + rewrite lookup_insert_ne by done. apply Hh.
  - destruct (current_super_class lc) as [sc0|]; [|done].
    destruct (metabolic_pathways s !! sc0) as [classes0|] eqn:Hcl; [|done].
    simplify_eq. split; simpl; [done|]. intros sc classes.
    destruct (decide (sc0 = sc)) as [->|Hne].
    + rewrite lookup_insert_eq. intros [= <-].
      destruct (Hh sc classes0 Hcl) as [Hsc Hcs]. split; [done|].
      intros c maps. destruct (decide (name0 = c)) as [->|Hne].
      * rewrite lookup_insert_eq. intros [= <-]. split; [done|].
        intros n. rewrite lookup_empty. by intros [? ?].
      * rewrite lookup_insert_ne by done. apply Hcs.
    + rewrite lookup_insert_ne by done. apply Hh.
  - destruct (current_super_class lc) as [sc0|]; [|done].
    destruct (metabolic_pathways s !! sc0) as [classes0|] eqn:Hcl; [|done].
    destruct (current_class lc) as [cc0|]; [|done].
    destruct (classes0 !! cc0) as [maps0|] eqn:Hmaps; [|done].
    simplify_eq. split; simpl.
    + intros k [->|Hk']%lookup_insert_is_Some'; [done|by apply Hidx].
    + intros sc classes. destruct (decide (sc0 = sc)) as [->|Hne].
      * rewrite lookup_insert_eq. intros [= <-].
        destruct (Hh sc classes0 Hcl) as [Hsc Hcs]. split; [done|].
        intros c maps. destruct (decide (cc0 = c)) as [->|Hne].
        -- rewrite lookup_insert_eq. intros [= <-].
           destruct (Hcs c maps0 Hmaps) as [Hc Hms]. split; [done|].
           intros n [->|Hn]%lookup_insert_is_Some'; [done|by apply Hms].
        -- rewrite lookup_insert_ne by done. apply Hcs.
      * rewrite lookup_insert_ne by done. apply Hh.
  - by simplify_eq.
Qed.

Lemma run_keys_shaped ks lc s r s' :
  Forall valid_kind ks → keys_shaped s → run ks lc s = (r, s') →
  keys_shaped s'.
Proof.
  intros Hks. revert lc s.
  induction Hks as [|k ks Hk _ IH]; intros lc s Hs Hrun.
  - by injection Hrun as <- <-.
  - simpl in Hrun. unfold mbind, M_bind in Hrun.
    destruct (apply_kind k lc s) as [[lc1|e] s1] eqn:E.
    + eapply IH; [|exact Hrun]. by eapply keys_shaped_step.
    + simplify_eq. by apply apply_kind_raise in E as ->.
Qed.

(** X15. Wherever the build pass on a new instance stops, every key of
    the flat index and every map number in the hierarchy is a non-empty
    string of ASCII digits, and every superclass and class name in the
    hierarchy starts with a capital ASCII letter and contains no ['#']. *)
Theorem keys_have_their_shape (file : list str) (r : result unit)
    (s : PathwayListFile) :
  generate_metabolic_pathway_data (__init__ file) = (r, s) →
  (∀ k, is_Some (maps_and_pathways s !! k) →
     k ≠ [] ∧ Forall (λ c, 48 ≤ c ≤ 57) k) ∧
  (∀ sc classes, metabolic_pathways s !! sc = Some classes →
     ((HASH ∉ sc) ∧ ∃ c r, sc = c :: r ∧ 65 ≤ c ≤ 90) ∧
     ∀ c maps, classes !! c = Some maps →
       ((HASH ∉ c) ∧ ∃ c' r, c = c' :: r ∧ 65 ≤ c' ≤ 90) ∧
       ∀ n, is_Some (maps !! n) → n ≠ [] ∧ Forall (λ c, 48 ≤ c ≤ 57) n).
Proof.
  rewrite generate_run. simpl pathway_file.
  destruct (run _ _ _) as [r' s'] eqn:Hrun. intros Hr.
  assert (s' = s) as -> by (destruct r'; by simplify_eq).
  assert (Forall valid_kind (map classify file)) as Hks.
  { apply Forall_fmap, Forall_forall. intros raw _. apply classify_valid. }
  assert (keys_shaped (count_read (__init__ file))) as Hinit.
  { split; simpl.
    - intros k. rewrite lookup_empty. by intros [? ?].
    - intros sc classes. by rewrite lookup_empty. }
  apply (run_keys_shaped _ _ _ _ _ Hks Hinit Hrun).
Qed.

Lemma keys_have_their_shape_witness :
  (∀ k, is_Some (maps_and_pathways recurring_values_state !! k) →
     k ≠ [] ∧ Forall (λ c, 48 ≤ c ≤ 57) k) ∧
  (∀ sc classes,
     metabolic_pathways recurring_values_state !! sc = Some classes →
     ((HASH ∉ sc) ∧ ∃ c r, sc = c :: r ∧ 65 ≤ c ≤ 90) ∧
     ∀ c maps, classes !! c = Some maps →
       ((HASH ∉ c) ∧ ∃ c' r, c = c' :: r ∧ 65 ≤ c' ≤ 90) ∧
       ∀ n, is_Some (maps !! n) → n ≠ [] ∧ Forall (λ c, 48 ≤ c ≤ 57) n).
Proof.
  apply (keys_have_their_shape recurring_values_file (Ok ())
           recurring_values_state).
  vm_compute. reflexivity.
Defined.

(** ** After a failed build *)

(** A build pass that recorded no map, however it ended, ends the same
    way when run again on the state it left, and changes nothing but the
    read counter. *)
Lemma rebuild_same_outcome file r s1 :
  generate_metabolic_pathway_data (__init__ file) = (r, s1) →
  maps_and_pathways s1 = ∅ →
  generate_metabolic_pathway_data s1 = (r, count_read s1).
Proof.
  intros Hgen Hm.
  destruct (generate_consistent _ _ _ Hgen) as [lc1 Hcons].
  destruct (consistent_no_maps _ _ Hcons Hm) as (Hn & Hnum & Hs & Hc).
  rewrite generate_run in *. simpl pathway_file in *.
  destruct (run (map classify file) no_locals (count_read (__init__ file)))
    as [r' s] eqn:Hrun.
  assert (s = s1) as -> by (destruct r'; by simplify_eq).
  pose proof (run_file _ _ _ _ _ Hrun) as [Hfile Hreads]. simpl in Hfile, Hreads.
  rewrite Hfile.
  assert (same_records (count_read (__init__ file)) (count_read s1)) as Hrec.
  { unfold same_records. simpl. by split_and!. }
  destruct (run_lockstep _ _ _ (count_read s1) _ _
              (map_empty_subseteq _) Hrec
              (consistent_init file no_locals eq_refl) Hrun)
    as (s2 & -> & Hsub & (Hf2 & Hm2 & Hn2 & Hnum2 & Hs2 & Hc2) & Hreads2 & Hframe).
  assert (s2 = count_read s1) as ->; [|by destruct r'; simplify_eq].
  destruct s1, s2; unfold count_read; simpl in *; simplify_eq. f_equal.
  apply map_eq. intros x.
  destruct (metabolic_pathways0 !! x) as [y|] eqn:E.
  - by apply (lookup_weaken _ _ _ _ E Hsub).
  - by rewrite Hframe.
Qed.

(** X16. An exception of the build pass is not remembered. When the
    first call of an accessor on a new instance raises, the second call
    tests its storage as usual: if the failed pass left it empty, the
    file is read again, the same exception is raised and no attribute
    changes; if the failed pass had stored something before it stopped,
    the second call reads no file and returns what the attributes hold,
    the partial result of the failed pass. *)
Theorem second_call_after_raise (file : list str) (a : accessor) (e : exn)
    (s1 : PathwayListFile) :
  call a (__init__ file) = (Raise e, s1) →
  call a s1
  = if storage_empty a s1 then (Raise e, count_read s1)
    else (view_of a s1, s1).
Proof.
  rewrite call_on_new.
  destruct (generate_metabolic_pathway_data (__init__ file))
    as [[[]|e'] s] eqn:Hgen.
  - intros Hv. assert (s = s1) as -> by congruence.
    assert (view_of a s1 = Raise e) as Hview by congruence.
    rewrite (call_after_build file s1 a Hgen), Hview.
    by destruct (storage_empty a s1).
  - intros [= -> ->]. rewrite call_build_view.
    destruct (storage_empty a s1) eqn:Hempty; [|done].
    assert (maps_and_pathways s1 = ∅) as Hm.
    { destruct (generate_consistent _ _ _ Hgen) as [lc Hcons].
      destruct a; simpl in Hempty; apply size_zero_empty in Hempty; try done.
      by eapply consistent_no_hierarchy. }
    by rewrite (rebuild_same_outcome file _ s1 Hgen Hm).
Qed.

Lemma second_call_after_raise_witness :
  call GetMapsAndPathways
    (generate_metabolic_pathway_data (__init__ stale_class_file)).2
  = if storage_empty GetMapsAndPathways
         (generate_metabolic_pathway_data (__init__ stale_class_file)).2
    then (Raise (KeyError (py "Global and overview maps")),
          count_read
            (generate_metabolic_pathway_data (__init__ stale_class_file)).2)
    else (view_of GetMapsAndPathways
            (generate_metabolic_pathway_data (__init__ stale_class_file)).2,
          (generate_metabolic_pathway_data (__init__ stale_class_file)).2).
Proof.
  apply (second_call_after_raise stale_class_file GetMapsAndPathways).
  vm_compute. reflexivity.
Defined.

(** ** The two hierarchy accessors *)

Lemma all_pathways_call s :
  all_pathways s =
  match call AllPathways s with
  | (Ok (Hierarchy h), s') => (Ok h, s')
  | (Ok _, s') => (Ok ∅, s')
  | (Raise e, s') => (Raise e, s')
  end.
Proof.
  unfold call. unfold_M. by destruct (all_pathways s) as [[h|e] s'].
Qed.

Lemma pathways_and_maps_call s :
  pathways_and_maps s =
  match call PathwaysAndMaps s with
  | (Ok (Hierarchy h), s') => (Ok h, s')
  | (Ok _, s') => (Ok ∅, s')
  | (Raise e, s') => (Raise e, s')
  end.
Proof.
  unfold call. unfold_M. by destruct (pathways_and_maps s) as [[h|e] s'].
Qed.

(** X17. [pathways_and_maps] tests the hierarchy and [all_pathways] tests
    the flat index, yet on a new instance they do the same: same result,
    same state afterwards. And once either of them has returned on a new
    instance, the other returns the same hierarchy. *)
Theorem hierarchy_accessors_agree (file : list str) :
  all_pathways (__init__ file) = pathways_and_maps (__init__ file) ∧
  ∀ h s1,
    pathways_and_maps (__init__ file) = (Ok h, s1) →
    (all_pathways s1).1 = Ok h ∧ (pathways_and_maps s1).1 = Ok h.
Proof.
  split.
  - by rewrite all_pathways_call, pathways_and_maps_call, !call_on_new.
  - intros h s1. rewrite pathways_and_maps_call, call_on_new.
    destruct (generate_metabolic_pathway_data (__init__ file))
      as [[[]|e] s] eqn:Hgen; [|done].
    simpl. intros [= <- <-].
    rewrite all_pathways_call, pathways_and_maps_call.
    rewrite !(call_after_build file s _ Hgen). by split.
Qed.

Lemma hierarchy_accessors_agree_witness :
  (all_pathways recurring_values_state).1 = Ok recurring_values_hierarchy ∧
  (pathways_and_maps recurring_values_state).1 = Ok recurring_values_hierarchy.
Proof.
  apply (proj2 (hierarchy_accessors_agree recurring_values_file)).
  vm_compute. reflexivity.
Defined.

(** * C8: lookup by map number *)


(** ** A build pass on any state *)










